(** * HOPP: dispatch option resolution and CSP plant helpers

    A shallow embedding of
      - [hybrid/dispatch/hybrid_dispatch_options.py]
        (class [HybridDispatchOptions]), and
      - [hybrid/csp_source.py]
        (class [CspPlant]: the required-key check of [__init__], the
        granularity guard of [set_weather], [seconds_since_newyear]),
    together with the properties the specification states about them.

    Python objects are modelled as tagged values, instance attributes as a
    finite map from attribute names to values, dictionaries as association
    lists in insertion order, and [raise] as the error branch of a result
    type. *)

From Stdlib Require Import ZArith String Lia.
From Stdlib Require Import PrimFloat FloatOps SpecFloat DecimalString.
From stdpp Require Import gmap strings list.

Open Scope Z_scope.

(** ** Python values, runtime types and exceptions *)

Module Py.

(** The runtime class of a value, what [type(v)] returns. *)
Inductive pytype : Type :=
| TStr | TInt | TBool | TFloat | TNoneType | TList | TDict | TType
| TInstance (cls : string).

#[global] Instance pytype_eq_dec : EqDecision pytype.
Proof. solve_decision. Defined.

(** Values an option mapping can carry.  [VClass] is a class object (the
    dispatch model classes), [VInstance] an instance of any class that is
    not one of the built-in ones listed (for example [numpy.int64]). *)
#[warnings="-register-all"]
Inductive pyval : Type :=
| VStr (s : string)
| VInt (z : Z)
| VBool (b : bool)
| VFloat (f : float)
| VNone
| VList (l : list pyval)
| VDict (items : list (pyval * pyval))
| VClass (name : string)
| VInstance (cls : string).

Definition type_of (v : pyval) : pytype :=
  match v with
  | VStr _ => TStr
  | VInt _ => TInt
  | VBool _ => TBool
  | VFloat _ => TFloat
  | VNone => TNoneType
  | VList _ => TList
  | VDict _ => TDict
  | VClass _ => TType
  | VInstance c => TInstance c
  end.

(** [issubclass] on the built-in classes: every class is a subclass of
    itself and [bool] is a subclass of [int]. *)
Definition issubclass (a b : pytype) : bool :=
  match a, b with
  | TBool, TInt => true
  | _, _ => bool_decide (a = b)
  end.

Definition isinstance (v : pyval) (t : pytype) : bool :=
  issubclass (type_of v) t.

Inductive exn : Type :=
| Exception (msg : string)
| ValueError (msg : string)
| NameError (msg : string)
| AttributeError (msg : string)
| TypeError (msg : string)
| IndexError (msg : string)
| ZeroDivisionError (msg : string)
| OverflowError (msg : string).

Inductive result (A : Type) : Type :=
| Ok (a : A)
| Raise (e : exn).
Arguments Ok {A} a.
Arguments Raise {A} e.

#[global] Instance result_ret : MRet result := fun _ a => Ok a.
#[global] Instance result_bind : MBind result :=
  fun _ _ f m => match m with Ok a => f a | Raise e => Raise e end.

(** Decimal rendering of an integer, as [str] and [format] print it. *)
Definition str_of_int (z : Z) : string :=
  NilZero.string_of_int (Z.to_int z).

(** [needle in hay] on two strings is the substring test. *)
Definition str_contains (needle hay : string) : bool :=
  match String.index 0 needle hay with
  | Some _ => true
  | None => false
  end.

(** A [dict] with string keys, as the list of its items in insertion
    order.  A dictionary holds each key once. *)
Definition dict (V : Type) : Type := list (string * V).

Definition dict_wf {V} (d : dict V) : Prop := NoDup (d.*1).

Fixpoint dict_get {V} (d : dict V) (k : string) : option V :=
  match d with
  | [] => None
  | (k', v) :: d' => if decide (k' = k) then Some v else dict_get d' k
  end.

End Py.
Import Py.

(** ** [HybridDispatchOptions] *)

Module HybridDispatchOptions.

(** The instance dictionary of [self]: attribute name to value. *)
Abbreviation attrs := (gmap string pyval).

Definition class_name : string := "HybridDispatchOptions".

(** Attribute access on the instance.  Only the attributes [__init__]
    assigns are modelled; names an object inherits from its class (methods
    and double-underscore names) are not part of an option mapping and are
    left out of the attribute table. *)
Definition hasattr (self : attrs) (key : string) : bool :=
  bool_decide (is_Some (self !! key)).

Definition getattr (self : attrs) (key : string) : result pyval :=
  match self !! key with
  | Some v => Ok v
  | None =>
      Raise (AttributeError
               ("'" +:+ class_name +:+ "' object has no attribute '"
                    +:+ key +:+ "'"))
  end.

Definition setattr (self : attrs) (key : string) (value : pyval) : attrs :=
  <[key := value]> self.

(** Lines 40-55: the defaults, assigned in source order.  [n_clusters] is
    annotated [bool] in the source but holds the [int] 30; annotations have
    no runtime effect. *)
Definition default_assignments : list (string * pyval) :=
  [ ("solver", VStr "glpk");
    ("cbc_timeout", VInt 10);
    ("battery_dispatch", VStr "simple");
    ("include_lifecycle_count", VBool true);
    ("grid_charging", VBool true);
    ("n_look_ahead_periods", VInt 48);
    ("n_roll_periods", VInt 24);
    ("log_name", VStr "");
    ("is_test_start_year", VBool false);
    ("is_test_end_year", VBool false);
    ("use_clustering", VBool false);
    ("n_clusters", VInt 30);
    ("clustering_weights", VDict []);
    ("clustering_divisions", VDict []) ].

Definition defaults : attrs :=
  foldl (fun self kv => setattr self kv.1 kv.2) ∅ default_assignments.

Definition wrong_type_msg (key : string) : string :=
  "'" +:+ key +:+ "' is the wrong data type.".

Definition not_attribute_msg (key : string) : string :=
  "'" +:+ key +:+ "' is not an attribute in " +:+ class_name.

Definition not_dispatch_class_msg (name : string) : string :=
  "'" +:+ name +:+ "' is not currently a battery dispatch class.".

(** Lines 58-65: the loop over [dispatch_options.items()]. *)
Fixpoint merge_options (self : attrs) (items : dict pyval) : result attrs :=
  match items with
  | [] => Ok self
  | (key, value) :: rest =>
      if hasattr self key then
        current ← getattr self key;
        if decide (type_of current = type_of value) then
          merge_options (setattr self key value) rest
        else Raise (ValueError (wrong_type_msg key))
      else Raise (NameError (not_attribute_msg key))
  end.

(** Lines 67-72: the table from variant name to dispatch model class. *)
Definition _battery_dispatch_model_options : dict string :=
  [ ("one_cycle_heuristic", "OneCycleBatteryDispatchHeuristic");
    ("heuristic", "SimpleBatteryDispatchHeuristic");
    ("simple", "SimpleBatteryDispatch");
    ("non_convex_LV", "NonConvexLinearVoltageBatteryDispatch");
    ("convex_LV", "ConvexLinearVoltageBatteryDispatch") ].

Definition model_options_value : pyval :=
  VDict (map (fun kv => (VStr kv.1, VClass kv.2))
             _battery_dispatch_model_options).

(** Lines 67-81.  [battery_dispatch] holds a [str] whenever the loop above
    has succeeded (lemma [merge_options_types] below), so the last branch
    is never taken by [__init__]. *)
Definition resolve_battery_dispatch (self : attrs) : result attrs :=
  let self :=
    setattr self "_battery_dispatch_model_options" model_options_value in
  bd ← getattr self "battery_dispatch";
  match bd with
  | VStr name =>
      match dict_get _battery_dispatch_model_options name with
      | Some cls =>
          let self := setattr self "battery_dispatch_class" (VClass cls) in
          if str_contains "heuristic" name then
            let self := setattr self "n_roll_periods" (VInt 24) in
            n_roll ← getattr self "n_roll_periods";
            Ok (setattr self "n_look_ahead_periods" n_roll)
          else Ok self
      | None => Raise (ValueError (not_dispatch_class_msg name))
      end
  | _ => Raise (TypeError "battery_dispatch is not a str")
  end.

(** [HybridDispatchOptions(dispatch_options)]; [None] is the default
    argument. *)
Definition __init__ (dispatch_options : option (dict pyval)) : result attrs :=
  let self := defaults in
  self ← match dispatch_options with
         | Some d => merge_options self d
         | None => Ok self
         end;
  resolve_battery_dispatch self.

(** The option table of the docstring (lines 21-38): name and type of
    every option the constructor documents. *)
Definition option_type (key : string) : option pytype :=
  if decide (key = "solver") then Some TStr
  else if decide (key = "cbc_timeout") then Some TInt
  else if decide (key = "battery_dispatch") then Some TStr
  else if decide (key = "grid_charging") then Some TBool
  else if decide (key = "include_lifecycle_count") then Some TBool
  else if decide (key = "n_look_ahead_periods") then Some TInt
  else if decide (key = "n_roll_periods") then Some TInt
  else if decide (key = "log_name") then Some TStr
  else if decide (key = "is_test_start_year") then Some TBool
  else if decide (key = "is_test_end_year") then Some TBool
  else if decide (key = "use_clustering") then Some TBool
  else if decide (key = "n_clusters") then Some TInt
  else if decide (key = "clustering_weights") then Some TDict
  else if decide (key = "clustering_divisions") then Some TDict
  else None.

End HybridDispatchOptions.

(** ** [datetime.datetime] and [datetime.timedelta]

    The part of Python's [datetime] module that [csp_source.py] calls:
    the checked constructor (through [replace]), subtraction of two naive
    datetimes and [timedelta.total_seconds]. *)

Module Datetime.

Record datetime : Type := mk_datetime {
  year : Z; month : Z; day : Z;
  hour : Z; minute : Z; second : Z; microsecond : Z
}.

(** A [timedelta] is kept normalised: [0 <= seconds < 86400] and
    [0 <= microseconds < 1000000]. *)
Record timedelta : Type := mk_timedelta {
  td_days : Z; td_seconds : Z; td_microseconds : Z
}.

Definition is_leap (y : Z) : bool :=
  (y mod 4 =? 0) && (negb (y mod 100 =? 0) || (y mod 400 =? 0)).

Definition days_in_month (y m : Z) : Z :=
  if (m =? 2) && is_leap y then 29
  else nth (Z.to_nat m) [0; 31; 28; 31; 30; 31; 30; 31; 31; 30; 31; 30; 31] 0.

Definition days_before_year (y : Z) : Z :=
  let y := y - 1 in y * 365 + y / 4 - y / 100 + y / 400.

Definition days_before_month (y m : Z) : Z :=
  nth (Z.to_nat m) [0; 0; 31; 59; 90; 120; 151; 181; 212; 243; 273; 304; 334] 0
  + (if (2 <? m) && is_leap y then 1 else 0).

Definition ymd2ord (y m d : Z) : Z :=
  days_before_year y + days_before_month y m + d.

Definition toordinal (dt : datetime) : Z :=
  ymd2ord (year dt) (month dt) (day dt).

Definition in_range (lo x hi : Z) : bool := (lo <=? x) && (x <=? hi).

(** The constructor [datetime(year, month, day, hour, minute, second,
    microsecond)], which validates every field. *)
Definition datetime_new (y mo d h mi s us : Z) : result datetime :=
  if negb (in_range 1 y 9999) then
    Raise (ValueError ("year " +:+ str_of_int y +:+ " is out of range"))
  else if negb (in_range 1 mo 12) then
    Raise (ValueError "month must be in 1..12")
  else if negb (in_range 1 d (days_in_month y mo)) then
    Raise (ValueError "day is out of range for month")
  else if negb (in_range 0 h 23) then
    Raise (ValueError "hour must be in 0..23")
  else if negb (in_range 0 mi 59) then
    Raise (ValueError "minute must be in 0..59")
  else if negb (in_range 0 s 59) then
    Raise (ValueError "second must be in 0..59")
  else if negb (in_range 0 us 999999) then
    Raise (ValueError "microsecond must be in 0..999999")
  else Ok (mk_datetime y mo d h mi s us).

(** The datetimes the constructor builds. *)
Definition valid (dt : datetime) : bool :=
  in_range 1 (year dt) 9999 && in_range 1 (month dt) 12
  && in_range 1 (day dt) (days_in_month (year dt) (month dt))
  && in_range 0 (hour dt) 23 && in_range 0 (minute dt) 59
  && in_range 0 (second dt) 59 && in_range 0 (microsecond dt) 999999.

(** [dt.replace(year=y)] builds a new datetime from the other fields. *)
Definition replace_year (dt : datetime) (y : Z) : result datetime :=
  datetime_new y (month dt) (day dt)
               (hour dt) (minute dt) (second dt) (microsecond dt).

Definition timedelta_new (days seconds microseconds : Z) : timedelta :=
  let us := (days * 86400 + seconds) * 1000000 + microseconds in
  mk_timedelta (us / 86400000000)
               (us mod 86400000000 / 1000000)
               (us mod 1000000).

(** [a - b] on naive datetimes. *)
Definition sub (a b : datetime) : timedelta :=
  let secs1 := second a + minute a * 60 + hour a * 3600 in
  let secs2 := second b + minute b * 60 + hour b * 3600 in
  timedelta_new (toordinal a - toordinal b) (secs1 - secs2)
                (microsecond a - microsecond b).

Definition total_microseconds (td : timedelta) : Z :=
  (td_days td * 86400 + td_seconds td) * 1000000 + td_microseconds td.

(** [int(td.total_seconds())].  [total_seconds] is the quotient of the
    microsecond count by [10**6], rounded to the nearest double; [int]
    truncates towards zero.  For the differences taken in this file (less
    than one year, so below [2**53] microseconds, with six decimal places)
    the rounded quotient has the same integer part as the exact one, which
    is what is computed here. *)
Definition int_total_seconds (td : timedelta) : Z :=
  Z.quot (total_microseconds td) 1000000.

End Datetime.

(** ** Python [float] arithmetic (IEEE 754 binary64) *)

Module PyFloat.

(** [a / b] on floats. *)
Definition truediv (a b : float) : result float :=
  if PrimFloat.eqb b 0%float then
    Raise (ZeroDivisionError "float division by zero")
  else Ok (PrimFloat.div a b).

(** [int(x)]: truncation towards zero. *)
Definition to_int (x : float) : result Z :=
  match Prim2SF x with
  | S754_nan => Raise (ValueError "cannot convert float NaN to integer")
  | S754_infinity _ =>
      Raise (OverflowError "cannot convert float infinity to integer")
  | S754_zero _ => Ok 0
  | S754_finite sign m e =>
      let magnitude :=
        match e with
        | Z0 => Zpos m
        | Zpos p => Zpos m * 2 ^ Zpos p
        | Zneg p => Zpos m / 2 ^ Zpos p
        end in
      Ok (if sign then - magnitude else magnitude)
  end.

End PyFloat.

(** ** [CspPlant] *)

Module CspPlant.
Import Datetime.

(** *** [__init__], lines 34-36 *)

Definition required_keys : list string :=
  ["system_capacity_kw"; "solar_multiple"; "tes_hours"].

(** [all(key not in csp_config.keys() for key in required_keys)], then
    [raise ValueError] (raised without a message). *)
Definition check_required_keys (csp_config : gmap string pyval)
  : result unit :=
  if forallb (fun key => negb (bool_decide (key ∈ dom csp_config)))
             required_keys
  then Raise (ValueError "")
  else Ok tt.

(** *** [set_weather], lines 142-148 and 226

    [pandas] and the SSC wrapper are libraries outside the repository.
    The weather frame is represented by its index;
    [total_seconds_between t0 t1], the value of [(t1 - t0).total_seconds()]
    for two index entries, and the construction of the SSC weather table
    from the frame (lines 150-224) are parameters.  The SSC store keeps the two entries this method
    touches. *)

Section SetWeather.
Variable timestamp : Type.
Variable total_seconds_between : timestamp -> timestamp -> float.
Variable ssc_table : Type.
Variable weather_df_to_ssc_table :
  list timestamp -> datetime -> datetime -> result ssc_table.

Record ssc_state : Type := mk_ssc {
  time_steps_per_hour : Z;
  solar_resource_data : option ssc_table
}.

Definition index_at (index : list timestamp) (i : nat) : result timestamp :=
  match index !! i with
  | Some t => Ok t
  | None => Raise (IndexError "index out of bounds")
  end.

(** [int(1 / (weather_timedelta.total_seconds() / 3600))] *)
Definition weather_time_steps_per_hour (index : list timestamp)
  : result Z :=
  t1 ← index_at index 1;
  t0 ← index_at index 0;
  let weather_timedelta := total_seconds_between t0 t1 in
  hours ← PyFloat.truediv weather_timedelta 3600%float;
  per_hour ← PyFloat.truediv 1%float hours;
  PyFloat.to_int per_hour.

Definition mismatch_msg (configured weather : Z) : string :=
  "Configured time_steps_per_hour (" +:+ str_of_int configured
    +:+ ") is not that of weather file (" +:+ str_of_int weather +:+ ")".

Definition set_weather (ssc : ssc_state) (weather_index : list timestamp)
           (start_datetime end_datetime : datetime) : result ssc_state :=
  weather_tsph ← weather_time_steps_per_hour weather_index;
  let ssc_tsph := time_steps_per_hour ssc in
  if decide (weather_tsph ≠ ssc_tsph) then
    Raise (Exception (mismatch_msg ssc_tsph weather_tsph))
  else
    table ← weather_df_to_ssc_table weather_index
              start_datetime end_datetime;
    Ok (mk_ssc ssc_tsph (Some table)).
End SetWeather.

(** *** [seconds_since_newyear], lines 254-259 *)

Definition newyear : datetime := mk_datetime 2009 1 1 0 0 0 0.

Definition seconds_since_newyear (dt : datetime) : result Z :=
  replaced ← replace_year dt 2009;
  let time_diff := sub replaced newyear in
  Ok (int_total_seconds time_diff).

(** Two datetimes that agree on every field but the year. *)
Definition same_except_year (a b : datetime) : Prop :=
  month a = month b /\ day a = day b /\ hour a = hour b
  /\ minute a = minute b /\ second a = second b
  /\ microsecond a = microsecond b.

(** Seconds from 1 January 00:00:00 to a month, day and time of day in a
    year of 365 days, counted directly from the calendar. *)
Definition days_before_month_365 (m : Z) : Z :=
  match m with
  | 1 => 0 | 2 => 31 | 3 => 59 | 4 => 90 | 5 => 120 | 6 => 151
  | 7 => 181 | 8 => 212 | 9 => 243 | 10 => 273 | 11 => 304 | 12 => 334
  | _ => 0
  end.

Definition elapsed_seconds_365 (dt : datetime) : Z :=
  (((days_before_month_365 (month dt) + (day dt - 1)) * 24 + hour dt) * 60
     + minute dt) * 60 + second dt.

End CspPlant.

(** ** Vocabulary of the specification *)

Module Spec.
Import HybridDispatchOptions.

(** An entry of the option mapping passes validation when its key is a
    documented option and its value has exactly the documented type. *)
Definition entry_accepted (kv : string * pyval) : Prop :=
  option_type kv.1 = Some (type_of kv.2).

Definition passes_validation (opts : dict pyval) : Prop :=
  Forall entry_accepted opts.


Definition UnsupportedFormulationError (e : exn) : Prop :=
  exists name, e = ValueError (not_dispatch_class_msg name).

Definition known_variants : list string :=
  ["simple"; "one_cycle_heuristic"; "heuristic"; "non_convex_LV";
   "convex_LV"].

Definition heuristic_family (name : string) : Prop :=
  name = "heuristic" \/ name = "one_cycle_heuristic".


(** The integer in effect for an option before variant resolution: the
    user's override when there is one, else the default. *)
Definition requested_int (opts : dict pyval) (key : string) (default : Z)
  : Z :=
  match dict_get opts key with
  | Some (VInt z) => z
  | _ => default
  end.

(** The variant in effect: the user's override, else the default. *)
Definition requested_variant (opts : dict pyval) : string :=
  match dict_get opts "battery_dispatch" with
  | Some (VStr name) => name
  | _ => "simple"
  end.

(** The argument of the constructor overrides [key]. *)
Definition overrides (dispatch_options : option (dict pyval))
           (key : string) : Prop :=
  match dispatch_options with
  | Some opts => key ∈ opts.*1
  | None => False
  end.

(** The arguments the constructor accepts (lemma [init_ok_iff] below):
    no argument, or a dictionary whose entries all pass validation and
    whose variant is a known one. *)
Definition accepted_input (dispatch_options : option (dict pyval)) : Prop :=
  match dispatch_options with
  | Some opts =>
      dict_wf opts /\ passes_validation opts
      /\ requested_variant opts ∈ known_variants
  | None => True
  end.

End Spec.

(** ** [weather_df_to_ssc_table]: padding the weather table to a year

    [pad_solar_resource_data] (csp_source.py, lines 191-221), the function
    nested in [set_weather] that pads every column of the table handed to
    SSC.  The table is the dictionary built on lines 173-189: four scalar
    entries and twelve list entries, always with the same keys, kept here as
    a record. *)

Module SolarResourcePadding.

(** [float(z)]: the double nearest to an integer. *)
Definition float_of_int (z : Z) : float :=
  SF2Prim (binary_normalize prec emax z 0 false).

(** [a / b] on two [int]s.  Both operands are below [2**53] here, so the
    quotient of the two doubles is the correctly rounded quotient. *)
Definition int_truediv (a b : Z) : result float :=
  if b =? 0 then Raise (ZeroDivisionError "division by zero")
  else Ok (PrimFloat.div (float_of_int a) (float_of_int b)).

(** [td.total_seconds()], the microsecond count divided by [10**6]. *)
Definition total_seconds (td : Datetime.timedelta) : float :=
  PrimFloat.div (float_of_int (Datetime.total_microseconds td))
                (float_of_int 1000000).

Record solar_resource_data : Type := mk_solar_resource_data {
  tz : pyval; elev : pyval; lat : pyval; lon : pyval;
  year : list pyval; month : list pyval; day : list pyval;
  hour : list pyval; minute : list pyval;
  dn : list pyval; df : list pyval; gh : list pyval; wspd : list pyval;
  tdry : list pyval; pres : list pyval; tdew : list pyval
}.

(** The list entries, in the order of the dictionary. *)
Definition columns (srd : solar_resource_data) : list (list pyval) :=
  [year srd; month srd; day srd; hour srd; minute srd;
   dn srd; df srd; gh srd; wspd srd; tdry srd; pres srd; tdew srd].

(** [column[i]] *)
Definition item (column : list pyval) (i : nat) : result pyval :=
  match column !! i with
  | Some v => Ok v
  | None => Raise (IndexError "list index out of range")
  end.

(** An argument of the [datetime] constructor has to be an integer. *)
Definition as_int (v : pyval) : result Z :=
  match v with
  | VInt z => Ok z
  | VBool b => Ok (if b then 1 else 0)
  | _ => Raise (TypeError "an integer is required")
  end.

(** [datetime.datetime(year=srd['year'][i], month=srd['month'][i],
    day=srd['day'][i], hour=srd['hour'][i], minute=srd['minute'][i])]: the
    five subscripts are evaluated first, then the constructor checks its
    arguments. *)
Definition datetime_at (srd : solar_resource_data) (i : nat)
  : result Datetime.datetime :=
  y ← item (year srd) i;
  mo ← item (month srd) i;
  d ← item (day srd) i;
  h ← item (hour srd) i;
  mi ← item (minute srd) i;
  y ← as_int y; mo ← as_int mo; d ← as_int d; h ← as_int h; mi ← as_int mi;
  Datetime.datetime_new y mo d h mi 0 0.

(** Lines 198-208: the time step, one hour for a table of fewer than two
    rows and else the difference of the first two timestamps. *)
Definition padding_timestep (srd : solar_resource_data)
           (datetime_start : Datetime.datetime) : result Datetime.timedelta :=
  let n := Z.of_nat (length (dn srd)) in
  if n <? 2 then Ok (Datetime.timedelta_new 0 3600 0)
  else
    datetime_second_time ← datetime_at srd 1;
    Ok (Datetime.sub datetime_second_time datetime_start).

(** Line 209: [int(3600 / timestep.seconds)] *)
Definition steps_per_hour_of (timestep : Datetime.timedelta) : result Z :=
  q ← int_truediv 3600 (Datetime.td_seconds timestep);
  PyFloat.to_int q.

(** Lines 211-212: the index of the first row within the year 2009. *)
Definition start_index_of (datetime_start : Datetime.datetime)
           (timestep : Datetime.timedelta) : result Z :=
  replaced ← Datetime.replace_year datetime_start 2009;
  q ← PyFloat.truediv
        (total_seconds (Datetime.sub replaced CspPlant.newyear))
        (float_of_int (Datetime.td_seconds timestep));
  PyFloat.to_int q.

(** [front_padding + column + back_padding] *)
Definition pad_list (front back column : list pyval) : list pyval :=
  front ++ column ++ back.

(** The body of the loop: only list entries are padded. *)
Definition pad_value (front back : list pyval) (v : pyval) : pyval :=
  match v with
  | VList l => VList (pad_list front back l)
  | _ => v
  end.

Definition pad_entries (front back : list pyval) (srd : solar_resource_data)
  : solar_resource_data :=
  {| tz := pad_value front back (tz srd);
     elev := pad_value front back (elev srd);
     lat := pad_value front back (lat srd);
     lon := pad_value front back (lon srd);
     year := pad_list front back (year srd);
     month := pad_list front back (month srd);
     day := pad_list front back (day srd);
     hour := pad_list front back (hour srd);
     minute := pad_list front back (minute srd);
     dn := pad_list front back (dn srd);
     df := pad_list front back (df srd);
     gh := pad_list front back (gh srd);
     wspd := pad_list front back (wspd srd);
     tdry := pad_list front back (tdry srd);
     pres := pad_list front back (pres srd);
     tdew := pad_list front back (tdew srd) |}.

(** [[0] * k]: the empty list when [k] is negative. *)
Definition zeros (k : Z) : list pyval := replicate (Z.to_nat k) (VInt 0).

(** [pad_solar_resource_data]: the padded table, or [None] when the
    function falls off its end (line 217 has no [else]). *)
Definition pad_solar_resource_data (srd : solar_resource_data)
  : result (option solar_resource_data) :=
  datetime_start ← datetime_at srd 0;
  let n := Z.of_nat (length (dn srd)) in
  timestep ← padding_timestep srd datetime_start;
  steps_per_hour ← steps_per_hour_of timestep;
  i0 ← start_index_of datetime_start timestep;
  let diff := 8760 * steps_per_hour - n in
  let front_padding := zeros i0 in
  let back_padding := zeros (diff - i0) in
  if 0 <? diff then Ok (Some (pad_entries front_padding back_padding srd))
  else Ok None.

(** A table of three hourly rows on 1 January 2015, for the examples. *)
Definition sample_rows (first_hour : Z) : solar_resource_data :=
  let column (a b c : pyval) := [a; b; c] in
  mk_solar_resource_data
    (VInt (-7)) (VFloat 1829) (VFloat 40) (VFloat (-105))
    (column (VInt 2015) (VInt 2015) (VInt 2015))
    (column (VInt 1) (VInt 1) (VInt 1))
    (column (VInt 1) (VInt 1) (VInt 1))
    (column (VInt first_hour) (VInt (first_hour + 1)) (VInt (first_hour + 2)))
    (column (VInt 0) (VInt 0) (VInt 0))
    (column (VFloat 0) (VFloat 10) (VFloat 250))
    (column (VFloat 0) (VFloat 5) (VFloat 60))
    (column (VFloat 0) (VFloat 15) (VFloat 300))
    (column (VFloat 3) (VFloat 4) (VFloat 5))
    (column (VFloat (-2)) (VFloat (-1)) (VFloat 1))
    (column (VFloat 830) (VFloat 830) (VFloat 831))
    (column (VFloat (-9)) (VFloat (-9)) (VFloat (-8))).

End SolarResourcePadding.

(** ** [set_weather]: the simulation window (csp_source.py, lines 150-158)

    The start and end of the window are moved to the year of the weather
    file, and an end that does not come after the start is replaced by the
    start plus one weather time step.  The sum is a value of [pandas] and is
    kept symbolic. *)

Module WeatherWindow.
Import Datetime.

(** Naive datetimes compare as the tuples of their fields. *)
Definition datetime_key (dt : datetime) : list Z :=
  [year dt; month dt; day dt; hour dt; minute dt; second dt; microsecond dt].

Fixpoint tuple_le (a b : list Z) : bool :=
  match a, b with
  | [], _ => true
  | _ :: _, [] => false
  | x :: a', y :: b' =>
      if x <? y then true else if x =? y then tuple_le a' b' else false
  end.

(** [a <= b] *)
Definition datetime_le (a b : datetime) : bool :=
  tuple_le (datetime_key a) (datetime_key b).

Inductive window_end : Type :=
| EndAt (end_datetime : datetime)
| OneStepAfter (start_datetime : datetime).

(** Lines 150-158, given [weather_df.index[0].year]. *)
Definition weather_window (weather_year : Z)
           (start_datetime end_datetime : datetime)
  : result (datetime * window_end) :=
  bounds ← (if decide (year start_datetime ≠ weather_year) then
              start_datetime ← replace_year start_datetime weather_year;
              end_datetime ← replace_year end_datetime weather_year;
              Ok (start_datetime, end_datetime)
            else Ok (start_datetime, end_datetime));
  if datetime_le bounds.2 bounds.1
  then Ok (bounds.1, OneStepAfter bounds.1)
  else Ok (bounds.1, EndAt bounds.2).

End WeatherWindow.

(** ** [SolarLayout] (solar_layout.py)

    The methods that select on the kind of PV model.  PySAM exposes the
    numbers of a model as floats; of each model only the fields the layout
    reads or writes are kept.  The geometry of [reset_solargrid] (numpy,
    shapely and [find_best_solar_size], lines 94-127, and the penalty of
    lines 129-179) is outside the repository excerpt and is a parameter. *)

Module SolarLayout.

Inductive error : Type :=
| NotImplementedError (msg : string)
| Raised (e : exn).

Inductive outcome (A : Type) : Type :=
| Return (a : A)
| Raises (e : error).
Arguments Return {A} a.
Arguments Raises {A} e.

Record SolarGridParameters : Type := mk_SolarGridParameters {
  x_position : float; y_position : float; aspect_power : float;
  gcr : float; s_buffer : float; x_buffer : float
}.

Inductive system_model : Type :=
| Pvwattsv7 (SystemDesign_gcr SystemDesign_system_capacity : float)
| Pvsamv1 (Module_module_model : float)
          (cec_module_width cec_module_length : float)
          (cec_v_mp_ref cec_i_mp_ref : float)
          (subarray1_modules_per_string : float)
          (subarray2_enable subarray3_enable subarray4_enable : float).

(** [isinstance(model, pv_detailed.Pvsamv1)] *)
Definition is_Pvsamv1 (model : system_model) : bool :=
  match model with
  | Pvsamv1 _ _ _ _ _ _ _ _ _ => true
  | Pvwattsv7 _ _ => false
  end.

(** Truth value of a float: everything but zero. *)
Definition truthy (x : float) : bool := negb (PrimFloat.eqb x 0%float).

Section Layout.
Variable polygon : Type.
Variable strand : Type.

Record layout : Type := mk_layout {
  _system_model : system_model;
  min_spacing : float;
  module_power : float;
  module_width : float;
  module_height : float;
  modules_per_string : float;
  parameters : option SolarGridParameters;
  num_modules : Z;
  strands : list strand;
  solar_region : polygon;
  buffer_region : polygon
}.

(** Lines 61-75.  The module data are overwritten before the subarray
    check, so they stay overwritten when that check raises. *)
Definition _get_system_config (self : layout) : layout * outcome unit :=
  match _system_model self with
  | Pvwattsv7 _ _ => (self, Return tt)
  | Pvsamv1 module_model width length v_mp i_mp per_string sub2 sub3 sub4 =>
      if PrimFloat.eqb module_model 1%float then
        let self :=
          {| _system_model := _system_model self;
             min_spacing := min_spacing self;
             module_power :=
               PrimFloat.div (PrimFloat.mul v_mp i_mp) 1000%float;
             module_width := width;
             module_height := length;
             modules_per_string := per_string;
             parameters := parameters self;
             num_modules := num_modules self;
             strands := strands self;
             solar_region := solar_region self;
             buffer_region := buffer_region self |} in
        if truthy sub2 || truthy sub3 || truthy sub4 then
          (self, Raises (NotImplementedError
                           "Only one subarray can be used in layout design"))
        else (self, Return tt)
      else
        (self, Raises (NotImplementedError
                 "Only CEC Module Model with Databse is allowed currently"))
  end.

(** Lines 77-86. *)
Definition _set_system_layout (self : layout) : layout * outcome unit :=
  let system_capacity :=
    PrimFloat.mul (module_power self)
                  (SolarResourcePadding.float_of_int (num_modules self)) in
  match _system_model self with
  | Pvwattsv7 _ _ =>
      match parameters self with
      | Some p =>
          ({| _system_model := Pvwattsv7 (gcr p) system_capacity;
              min_spacing := min_spacing self;
              module_power := module_power self;
              module_width := module_width self;
              module_height := module_height self;
              modules_per_string := modules_per_string self;
              parameters := parameters self;
              num_modules := num_modules self;
              strands := strands self;
              solar_region := solar_region self;
              buffer_region := buffer_region self |}, Return tt)
      | None =>
          (self, Raises (Raised (AttributeError
                   "'NoneType' object has no attribute 'gcr'")))
      end
  | Pvsamv1 _ _ _ _ _ _ _ _ _ =>
      (self, Raises (NotImplementedError
               "Modification of Detailed PV Layout not yet enabled"))
  end.

(** Lines 94-121: the size computations and [find_best_solar_size], which
    give the number of modules, the strands, the solar region and its
    bounds. *)
Variable solar_bounds : Type.
Variable find_best_solar_size :
  layout -> float -> option SolarGridParameters ->
  outcome (Z * list strand * polygon * solar_bounds).

(** Lines 123-127: the buffer region around the solar bounds. *)
Variable make_buffer_region :
  layout -> solar_bounds -> option SolarGridParameters -> outcome polygon.

(** The penalty of lines 129-179. *)
Variable excess_buffer_penalty : layout -> outcome float.

(** Lines 88-183. *)
Definition reset_solargrid (self : layout) (solar_capacity_kw : float)
           (params : option SolarGridParameters) : layout * outcome float :=
  let self :=
    {| _system_model := _system_model self;
       min_spacing := min_spacing self;
       module_power := module_power self;
       module_width := module_width self;
       module_height := module_height self;
       modules_per_string := modules_per_string self;
       parameters := params;
       num_modules := num_modules self;
       strands := strands self;
       solar_region := solar_region self;
       buffer_region := buffer_region self |} in
  match _get_system_config self with
  | (self, Raises e) => (self, Raises e)
  | (self, Return _) =>
      match find_best_solar_size self solar_capacity_kw params with
      | Raises e => (self, Raises e)
      | Return (n, strands', solar, bounds) =>
          let self :=
            {| _system_model := _system_model self;
               min_spacing := min_spacing self;
               module_power := module_power self;
               module_width := module_width self;
               module_height := module_height self;
               modules_per_string := modules_per_string self;
               parameters := parameters self;
               num_modules := n;
               strands := strands';
               solar_region := solar;
               buffer_region := buffer_region self |} in
          match make_buffer_region self bounds params with
          | Raises e => (self, Raises e)
          | Return buffer =>
              let self :=
                {| _system_model := _system_model self;
                   min_spacing := min_spacing self;
                   module_power := module_power self;
                   module_width := module_width self;
                   module_height := module_height self;
                   modules_per_string := modules_per_string self;
                   parameters := parameters self;
                   num_modules := num_modules self;
                   strands := strands self;
                   solar_region := solar_region self;
                   buffer_region := buffer |} in
              match excess_buffer_penalty self with
              | Raises e => (self, Raises e)
              | Return penalty =>
                  match _set_system_layout self with
                  | (self, Raises e) => (self, Raises e)
                  | (self, Return _) => (self, Return penalty)
                  end
              end
          end
      end
  end.

(** Lines 185-188. *)
Definition set_layout_params (self : layout) (params : SolarGridParameters)
  : layout * outcome unit :=
  let system_capacity :=
    PrimFloat.mul (module_power self)
                  (SolarResourcePadding.float_of_int (num_modules self)) in
  match reset_solargrid self system_capacity (Some params) with
  | (self, Raises e) => (self, Raises e)
  | (self, Return _) => (self, Return tt)
  end.

(** Lines 190-196.  A [SolarGridParameters] tuple is never empty, so
    [if self.parameters] tests for [None]. *)
Definition set_system_capacity (self : layout) (size_kw : float)
  : layout * outcome unit :=
  match parameters self with
  | Some p =>
      match reset_solargrid self size_kw (Some p) with
      | (self, Raises e) => (self, Raises e)
      | (self, Return _) => (self, Return tt)
      end
  | None => (self, Return tt)
  end.

End Layout.


Definition sample_detailed_layout (subarray2_enable : float)
  : layout unit unit :=
  mk_layout unit unit (Pvsamv1 1 1 1.5 40 9 12 subarray2_enable 0 0)
            100 0.5 1 2 12 None 0 [] tt tt.

Definition sample_grid : SolarGridParameters :=
  mk_SolarGridParameters 0.5 0.5 0 0.5 1 1.

Definition sample_placement (self : layout unit unit) (capacity : float)
           (params : option SolarGridParameters)
  : outcome (Z * list unit * unit * unit) :=
  Return (240, [tt], tt, tt).

End SolarLayout.

(** ** Properties of the option loop *)

Section MergeOptions.
Import HybridDispatchOptions Spec.

Lemma defaults_lookup_other (k : string) :
  option_type k = None -> defaults !! k = None.
Proof.
  unfold option_type. intros H.
  repeat case_decide; try discriminate.
  unfold defaults, default_assignments, setattr; simpl.
  rewrite !lookup_insert_ne by congruence.
  apply lookup_empty.
Qed.

Lemma defaults_type (k : string) :
  type_of <$> (defaults !! k) = option_type k.
Proof.
  destruct (option_type k) eqn:E.
  - unfold option_type in E.
    repeat case_decide; subst; try discriminate;
      injection E as <-; reflexivity.
  - by rewrite defaults_lookup_other.
Qed.

Lemma merge_options_cons self key value rest :
  merge_options self ((key, value) :: rest) =
    match self !! key with
    | Some current =>
        if decide (type_of current = type_of value)
        then merge_options (setattr self key value) rest
        else Raise (ValueError (wrong_type_msg key))
    | None => Raise (NameError (not_attribute_msg key))
    end.
Proof.
  simpl. unfold hasattr, getattr.
  destruct (self !! key) as [current|] eqn:E.
  - rewrite bool_decide_eq_true_2 by eauto. reflexivity.
  - rewrite bool_decide_eq_false_2; [reflexivity|].
    intros [? ?]; discriminate.
Qed.

(** The loop never changes the runtime type of an attribute, nor the set
    of attributes. *)
Lemma merge_options_types items : forall self self',
  merge_options self items = Ok self' ->
  forall k, type_of <$> (self' !! k) = type_of <$> (self !! k).
Proof.
  induction items as [|[key value] rest IH]; intros self self' H k.
  - simpl in H. by injection H as <-.
  - rewrite merge_options_cons in H.
    destruct (self !! key) as [current|] eqn:E; [|discriminate].
    case_decide as Ht; [|discriminate].
    rewrite (IH _ _ H k). unfold setattr.
    destruct (decide (key = k)) as [->|Hne].
    + rewrite lookup_insert_eq, E. simpl. by rewrite Ht.
    + by rewrite lookup_insert_ne.
Qed.


(** The loop succeeds exactly on the mappings whose entries all match the
    type of the attribute they override. *)
Lemma merge_options_ok_iff items : forall self,
  (exists self', merge_options self items = Ok self') <->
  Forall (fun kv => type_of <$> (self !! kv.1) = Some (type_of kv.2)) items.
Proof.
  induction items as [|[key value] rest IH]; intros self.
  - split; [constructor | by eexists].
  - rewrite merge_options_cons, Forall_cons. simpl. split.
    + intros [self' H].
      destruct (self !! key) as [current|] eqn:E; [|discriminate].
      case_decide as Ht; [|discriminate].
      split; [simpl; by rewrite Ht|].
      assert (Hrest : exists s, merge_options (setattr self key value) rest
                                = Ok s) by eauto.
      apply IH in Hrest.
      eapply Forall_impl; [exact Hrest|]. intros [k v] Hk. simpl in *.
      rewrite <- Hk. unfold setattr.
      destruct (decide (key = k)) as [->|Hne].
      * rewrite lookup_insert_eq, E. simpl. by rewrite Ht.
      * by rewrite lookup_insert_ne.
    + intros [Hhd Htl].
      destruct (self !! key) as [current|] eqn:E; [|discriminate].
      simpl in Hhd. injection Hhd as Ht.
      rewrite decide_True by done.
      apply IH.
      eapply Forall_impl; [exact Htl|]. intros [k v] Hk. simpl in *.
      rewrite <- Hk. unfold setattr.
      destruct (decide (key = k)) as [->|Hne].
      * rewrite lookup_insert_eq, E. simpl. by rewrite Ht.
      * by rewrite lookup_insert_ne.
Qed.

Lemma merge_defaults_ok_iff opts :
  (exists self', merge_options defaults opts = Ok self') <->
  passes_validation opts.
Proof.
  rewrite merge_options_ok_iff. unfold passes_validation, entry_accepted.
  apply Forall_proper; [|done]. intros kv. by rewrite defaults_type.
Qed.


(** The first entry that fails validation decides the error. *)
Lemma merge_defaults_first_bad pre key value post :
  passes_validation pre ->
  option_type key <> Some (type_of value) ->
  merge_options defaults (pre ++ (key, value) :: post) =
    Raise (match option_type key with
           | None => NameError (not_attribute_msg key)
           | Some _ => ValueError (wrong_type_msg key)
           end).
Proof.
  intros Hpre Hbad.
  assert (Hgen : forall self,
    (forall k, type_of <$> (self !! k) = option_type k) ->
    merge_options self (pre ++ (key, value) :: post) =
      Raise (match option_type key with
             | None => NameError (not_attribute_msg key)
             | Some _ => ValueError (wrong_type_msg key)
             end)).
  { induction Hpre as [|[k v] pre Hkv Hpre IH]; intros self Hself.
    - simpl app. rewrite merge_options_cons.
      specialize (Hself key).
      destruct (self !! key) as [current|]; simpl in Hself;
        rewrite <- Hself in *; [|done].
      case_decide; [|done]. congruence.
    - simpl app. rewrite merge_options_cons.
      pose proof (Hself k) as Hk. unfold entry_accepted in Hkv.
      simpl in Hkv. rewrite Hkv in Hk.
      destruct (self !! k) as [current|] eqn:E; [|discriminate].
      simpl in Hk. injection Hk as Hk. rewrite decide_True by done.
      apply IH.
      intros q. rewrite <- Hself. unfold setattr.
      destruct (decide (k = q)) as [->|Hne].
      + rewrite lookup_insert_eq, E. simpl. by rewrite Hk.
      + by rewrite lookup_insert_ne. }
  apply Hgen, defaults_type.
Qed.

(** What the loop leaves in each attribute. *)
Lemma merge_options_lookup items : forall self self' k,
  dict_wf items ->
  merge_options self items = Ok self' ->
  self' !! k = match dict_get items k with
               | Some v => Some v
               | None => self !! k
               end.
Proof.
  induction items as [|[key value] rest IH]; intros self self' k Hwf H.
  - simpl in *. by injection H as <-.
  - rewrite merge_options_cons in H.
    destruct (self !! key) as [current|] eqn:E; [|discriminate].
    case_decide as Ht; [|discriminate].
    unfold dict_wf in Hwf. rewrite fmap_cons, NoDup_cons in Hwf.
    destruct Hwf as [Hnotin Hwf]. simpl in Hnotin.
    rewrite (IH _ _ k Hwf H). simpl. unfold setattr.
    destruct (decide (key = k)) as [->|Hne].
    + rewrite lookup_insert_eq.
      destruct (dict_get rest k) as [v|] eqn:Eg; [|done].
      exfalso. apply Hnotin. clear -Eg.
      induction rest as [|[k' v'] rest IHr]; [discriminate|].
      simpl in *. case_decide; subst; [left | right; auto].
    + by rewrite lookup_insert_ne.
Qed.

End MergeOptions.

(** ** Properties of variant resolution and of the constructor *)

Section Resolve.
Import HybridDispatchOptions Spec.

Lemma known_variants_table name :
  name ∈ known_variants <->
  is_Some (dict_get _battery_dispatch_model_options name).
Proof.
  unfold known_variants, _battery_dispatch_model_options. simpl. split.
  - rewrite !elem_of_cons, elem_of_nil.
    intros [->|[->|[->|[->|[->|[]]]]]]; vm_compute; eauto.
  - intros [cls H].
    repeat case_decide; subst; try discriminate;
      rewrite !elem_of_cons; tauto.
Qed.

Lemma heuristic_test name :
  name ∈ known_variants ->
  str_contains "heuristic" name = true <-> heuristic_family name.
Proof.
  unfold known_variants, heuristic_family.
  rewrite !elem_of_cons, elem_of_nil.
  intros [->|[->|[->|[->|[->|[]]]]]]; vm_compute;
    split; intros H; try discriminate; auto;
    destruct H; discriminate.
Qed.

Lemma resolve_known self name cls :
  self !! "battery_dispatch" = Some (VStr name) ->
  dict_get _battery_dispatch_model_options name = Some cls ->
  resolve_battery_dispatch self =
    let self1 :=
      <["battery_dispatch_class" := VClass cls]>
        (<["_battery_dispatch_model_options" := model_options_value]> self) in
    Ok (if str_contains "heuristic" name
        then <["n_look_ahead_periods" := VInt 24]>
               (<["n_roll_periods" := VInt 24]> self1)
        else self1).
Proof.
  intros Hbd Hcls. unfold resolve_battery_dispatch, getattr, setattr.
  rewrite lookup_insert_ne by done. rewrite Hbd. unfold mbind, result_bind. rewrite Hcls.
  destruct (str_contains "heuristic" name); [|done].
  by rewrite lookup_insert_eq.
Qed.

Lemma resolve_unknown self name :
  self !! "battery_dispatch" = Some (VStr name) ->
  dict_get _battery_dispatch_model_options name = None ->
  resolve_battery_dispatch self =
    Raise (ValueError (not_dispatch_class_msg name)).
Proof.
  intros Hbd Hcls. unfold resolve_battery_dispatch, getattr, setattr.
  rewrite lookup_insert_ne by done. rewrite Hbd. unfold mbind, result_bind. by rewrite Hcls.
Qed.

Lemma init_some opts :
  __init__ (Some opts) =
    merge_options defaults opts ≫= resolve_battery_dispatch.
Proof. reflexivity. Qed.

(** After the loop every option still holds a value of its documented
    type; in particular [battery_dispatch] is a [str]. *)
Lemma merged_type opts self key t :
  merge_options defaults opts = Ok self ->
  option_type key = Some t ->
  exists v, self !! key = Some v /\ type_of v = t.
Proof.
  intros Hm Ht.
  pose proof (merge_options_types _ _ _ Hm key) as Hty.
  rewrite defaults_type, Ht in Hty.
  destruct (self !! key) as [v|]; [|discriminate].
  exists v. split; [done|]. simpl in Hty. congruence.
Qed.

Lemma merged_variant opts self :
  dict_wf opts ->
  merge_options defaults opts = Ok self ->
  self !! "battery_dispatch" = Some (VStr (requested_variant opts)).
Proof.
  intros Hwf Hm.
  destruct (merged_type opts self "battery_dispatch" TStr Hm eq_refl)
    as (v & Hv & Hty).
  rewrite (merge_options_lookup _ _ _ _ Hwf Hm) in Hv.
  rewrite (merge_options_lookup _ _ _ _ Hwf Hm).
  unfold requested_variant.
  destruct (dict_get opts "battery_dispatch") as [w|].
  - injection Hv as ->. by destruct v.
  - reflexivity.
Qed.

Lemma merged_int opts self key d :
  dict_wf opts ->
  merge_options defaults opts = Ok self ->
  defaults !! key = Some (VInt d) ->
  self !! key = Some (VInt (requested_int opts key d)).
Proof.
  intros Hwf Hm Hd.
  assert (Ht : option_type key = Some TInt).
  { by rewrite <- defaults_type, Hd. }
  destruct (merged_type opts self key TInt Hm Ht) as (v & Hv & Hty).
  rewrite (merge_options_lookup _ _ _ _ Hwf Hm) in Hv.
  rewrite (merge_options_lookup _ _ _ _ Hwf Hm).
  unfold requested_int.
  destruct (dict_get opts key) as [w|].
  - injection Hv as ->. by destruct v.
  - done.
Qed.

Lemma merge_options_lookup_notin items : forall self self' k,
  k ∉ items.*1 ->
  merge_options self items = Ok self' ->
  self' !! k = self !! k.
Proof.
  induction items as [|[key value] rest IH]; intros self self' k Hk H.
  - simpl in H. by injection H as <-.
  - rewrite merge_options_cons in H.
    destruct (self !! key) as [current|] eqn:E; [|discriminate].
    case_decide as Ht; [|discriminate].
    rewrite fmap_cons, not_elem_of_cons in Hk. destruct Hk as [Hne Hk].
    rewrite (IH _ _ k Hk H). unfold setattr.
    by rewrite lookup_insert_ne.
Qed.

(** The constructor succeeds exactly on the accepted inputs. *)
Lemma init_ok_iff opts :
  dict_wf opts ->
  (exists cfg, __init__ (Some opts) = Ok cfg) <->
  accepted_input (Some opts).
Proof.
  intros Hwf. rewrite init_some. simpl. split.
  - intros [cfg H].
    destruct (merge_options defaults opts) as [self|e] eqn:Hm;
      [|discriminate].
    split; [done|]. split; [apply merge_defaults_ok_iff; eauto|].
    simpl in H. apply known_variants_table.
    pose proof (merged_variant _ _ Hwf Hm) as Hbd.
    destruct (dict_get _battery_dispatch_model_options
                       (requested_variant opts)) as [cls|] eqn:Hc; [eauto|].
    rewrite (resolve_unknown _ _ Hbd Hc) in H. discriminate.
  - intros (_ & Hval & Hknown).
    apply merge_defaults_ok_iff in Hval as [self Hm]. rewrite Hm. simpl.
    apply known_variants_table in Hknown as [cls Hc].
    rewrite (resolve_known _ _ _ (merged_variant _ _ Hwf Hm) Hc).
    eauto.
Qed.

End Resolve.

(** ** The dispatch option resolver: specification claims *)

Section ResolverClaims.
Import HybridDispatchOptions Spec.

(** Closed membership and distinctness goals are decided by evaluation. *)
Local Ltac decide_closed := apply (bool_decide_unpack _); vm_compute; exact I.

Local Ltac solve_wf := unfold dict_wf; simpl; decide_closed.

Local Ltac solve_validation :=
  unfold passes_validation; repeat constructor.

Lemma default_look_ahead :
  defaults !! "n_look_ahead_periods" = Some (VInt 48).
Proof. vm_compute. reflexivity. Qed.

Lemma default_roll : defaults !! "n_roll_periods" = Some (VInt 24).
Proof. vm_compute. reflexivity. Qed.

Lemma default_cbc_timeout : defaults !! "cbc_timeout" = Some (VInt 10).
Proof. vm_compute. reflexivity. Qed.

(** Construction without an argument. *)
Lemma init_none :
  __init__ None =
    Ok (<["battery_dispatch_class" := VClass "SimpleBatteryDispatch"]>
          (<["_battery_dispatch_model_options" := model_options_value]>
             defaults)).
Proof.
  assert (Hbd : defaults !! "battery_dispatch" = Some (VStr "simple")).
  { vm_compute. reflexivity. }
  exact (resolve_known defaults "simple" "SimpleBatteryDispatch" Hbd eq_refl).
Qed.

(** What an accepted mapping resolves to, attribute by attribute. *)
Lemma init_result opts cfg :
  dict_wf opts ->
  __init__ (Some opts) = Ok cfg ->
  exists self cls,
    merge_options defaults opts = Ok self
    /\ dict_get _battery_dispatch_model_options (requested_variant opts)
       = Some cls
    /\ cfg =
         let self1 :=
           <["battery_dispatch_class" := VClass cls]>
             (<["_battery_dispatch_model_options" := model_options_value]>
                self) in
         if str_contains "heuristic" (requested_variant opts)
         then <["n_look_ahead_periods" := VInt 24]>
                (<["n_roll_periods" := VInt 24]> self1)
         else self1.
Proof.
  intros Hwf H. rewrite init_some in H.
  destruct (merge_options defaults opts) as [self|e] eqn:Hm;
    [|discriminate].
  unfold mbind, result_bind in H.
  pose proof (merged_variant _ _ Hwf Hm) as Hbd.
  destruct (dict_get _battery_dispatch_model_options
                     (requested_variant opts)) as [cls|] eqn:Hc.
  - rewrite (resolve_known _ _ _ Hbd Hc) in H. injection H as <-.
    by exists self, cls.
  - rewrite (resolve_unknown _ _ Hbd Hc) in H. discriminate.
Qed.

(** The three attributes the invariant is about, after construction. *)
Lemma init_periods opts cfg :
  dict_wf opts ->
  __init__ (Some opts) = Ok cfg ->
  cfg !! "battery_dispatch" = Some (VStr (requested_variant opts))
  /\ (heuristic_family (requested_variant opts) ->
      cfg !! "n_look_ahead_periods" = Some (VInt 24)
      /\ cfg !! "n_roll_periods" = Some (VInt 24))
  /\ (~ heuristic_family (requested_variant opts) ->
      cfg !! "n_look_ahead_periods"
        = Some (VInt (requested_int opts "n_look_ahead_periods" 48))
      /\ cfg !! "n_roll_periods"
        = Some (VInt (requested_int opts "n_roll_periods" 24))).
Proof.
  intros Hwf H.
  destruct (init_result _ _ Hwf H) as (self & cls & Hm & Hc & ->).
  pose proof (merged_variant _ _ Hwf Hm) as Hbd.
  pose proof (merged_int _ _ _ _ Hwf Hm default_look_ahead) as Hla.
  pose proof (merged_int _ _ _ _ Hwf Hm default_roll) as Hro.
  assert (Hknown : requested_variant opts ∈ known_variants).
  { apply known_variants_table. eauto. }
  pose proof (heuristic_test _ Hknown) as Hh.
  cbv zeta.
  destruct (str_contains "heuristic" (requested_variant opts)) eqn:Hs.
  - split; [by rewrite !lookup_insert_ne by done|].
    split; [|intros Hn; exfalso; apply Hn; by apply Hh].
    intros _. split; [by rewrite lookup_insert_eq|].
    rewrite lookup_insert_ne by done. by rewrite lookup_insert_eq.
  - rewrite !lookup_insert_ne by done.
    split; [done|]. split; [|done].
    intros Hf. apply Hh in Hf. discriminate.
Qed.





(** C2.  When the mapping selects a heuristic variant, ['heuristic'] or
    ['one_cycle_heuristic'], and its entries pass validation, construction
    succeeds and both [n_roll_periods] and [n_look_ahead_periods] are 24,
    whatever the mapping holds for these two fields. *)
Theorem heuristic_forces_one_day opts name :
  dict_wf opts ->
  passes_validation opts ->
  dict_get opts "battery_dispatch" = Some (VStr name) ->
  heuristic_family name ->
  exists cfg,
    __init__ (Some opts) = Ok cfg
    /\ cfg !! "n_roll_periods" = Some (VInt 24)
    /\ cfg !! "n_look_ahead_periods" = Some (VInt 24).
Proof.
  intros Hwf Hval Hbd Hfam.
  assert (Hreq : requested_variant opts = name).
  { unfold requested_variant. by rewrite Hbd. }
  assert (Hacc : accepted_input (Some opts)).
  { split; [done|]. split; [done|]. rewrite Hreq.
    unfold known_variants. destruct Hfam as [->| ->]; decide_closed. }
  apply init_ok_iff in Hacc as [cfg Hcfg]; [|done].
  exists cfg. split; [done|].
  destruct (init_periods _ _ Hwf Hcfg) as (_ & H24 & _).
  rewrite Hreq in H24. destruct (H24 Hfam). by split.
Qed.

Lemma heuristic_forces_one_day_witness :
  exists cfg,
    __init__ (Some [("battery_dispatch", VStr "one_cycle_heuristic");
                    ("n_look_ahead_periods", VInt 48);
                    ("n_roll_periods", VInt 48)]) = Ok cfg
    /\ cfg !! "n_roll_periods" = Some (VInt 24)
    /\ cfg !! "n_look_ahead_periods" = Some (VInt 24).
Proof.
  apply (heuristic_forces_one_day _ "one_cycle_heuristic").
  - solve_wf.
  - solve_validation.
  - reflexivity.
  - right. reflexivity.
Defined.


Lemma init_first_bad pre key value post :
  passes_validation pre ->
  option_type key <> Some (type_of value) ->
  __init__ (Some (pre ++ (key, value) :: post)) =
    Raise (match option_type key with
           | None => NameError (not_attribute_msg key)
           | Some _ => ValueError (wrong_type_msg key)
           end).
Proof.
  intros Hpre Hbad.
  by rewrite init_some, (merge_defaults_first_bad _ _ _ _ Hpre Hbad).
Qed.





(** C5 (as stated, refuted).  The mapping
    [{'battery_dispatch': 'foo', 'not_a_real_option': 1}] names a variant
    outside the known set, yet construction fails in the option loop with
    the [NameError] for the unknown key, before the variant is looked
    up. *)
Lemma unsupported_formulation_counterexample :
  let opts := [("battery_dispatch", VStr "foo");
               ("not_a_real_option", VInt 1)] in
  dict_wf opts
  /\ dict_get opts "battery_dispatch" = Some (VStr "foo")
  /\ ("foo" ∉ known_variants)
  /\ __init__ (Some opts)
     = Raise (NameError
                "'not_a_real_option' is not an attribute in HybridDispatchOptions")
  /\ ~ (exists e, __init__ (Some opts) = Raise e
                  /\ UnsupportedFormulationError e).
Proof.
  cbv zeta. split; [solve_wf|]. split; [reflexivity|].
  split; [unfold known_variants; decide_closed|].
  split; [vm_compute; reflexivity|].
  intros (e & He & name & Hname).
  vm_compute in He. injection He as <-. discriminate.
Qed.

(** C5 (amended).  For every mapping whose entries all pass the key and
    type validation and whose [battery_dispatch] value is a string outside
    the known set, construction fails with the unsupported-formulation
    error naming that string. *)
Theorem unsupported_formulation_rejected opts name :
  dict_wf opts ->
  passes_validation opts ->
  dict_get opts "battery_dispatch" = Some (VStr name) ->
  name ∉ known_variants ->
  __init__ (Some opts) = Raise (ValueError (not_dispatch_class_msg name))
  /\ UnsupportedFormulationError
       (ValueError (not_dispatch_class_msg name)).
Proof.
  intros Hwf Hval Hbd Hunk. split; [|by exists name].
  apply merge_defaults_ok_iff in Hval as [self Hm].
  rewrite init_some, Hm. unfold mbind, result_bind.
  pose proof (merged_variant _ _ Hwf Hm) as Hself.
  assert (Hreq : requested_variant opts = name).
  { unfold requested_variant. by rewrite Hbd. }
  rewrite Hreq in Hself.
  apply resolve_unknown; [done|].
  destruct (dict_get _battery_dispatch_model_options name) eqn:Hc; [|done].
  exfalso. apply Hunk, known_variants_table. eauto.
Qed.

Lemma unsupported_formulation_rejected_witness :
  __init__ (Some [("cbc_timeout", VInt 30); ("battery_dispatch", VStr "foo")])
  = Raise (ValueError "'foo' is not currently a battery dispatch class.").
Proof.
  refine (proj1 (unsupported_formulation_rejected
                   [("cbc_timeout", VInt 30);
                    ("battery_dispatch", VStr "foo")] "foo" _ _ _ _)).
  - solve_wf.
  - solve_validation.
  - reflexivity.
  - unfold known_variants. decide_closed.
Defined.

(** C7.  When no mapping is given, or the accepted mapping has no
    ['cbc_timeout'] entry, construction returns a configuration whose
    [cbc_timeout] is 10. *)
Theorem cbc_timeout_default dispatch_options :
  accepted_input dispatch_options ->
  ~ overrides dispatch_options "cbc_timeout" ->
  exists cfg,
    __init__ dispatch_options = Ok cfg
    /\ cfg !! "cbc_timeout" = Some (VInt 10).
Proof.
  destruct dispatch_options as [opts|]; intros Hacc Hno.
  - pose proof Hacc as (Hwf & _ & _).
    apply init_ok_iff in Hacc as [cfg Hcfg]; [|done].
    exists cfg. split; [done|].
    destruct (init_result _ _ Hwf Hcfg) as (self & cls & Hm & _ & ->).
    cbv zeta.
    destruct (str_contains "heuristic" (requested_variant opts));
      rewrite !lookup_insert_ne by done;
      rewrite (merge_options_lookup_notin _ _ _ _ Hno Hm);
      apply default_cbc_timeout.
  - eexists. split; [apply init_none|].
    rewrite !lookup_insert_ne by done. apply default_cbc_timeout.
Qed.

Lemma cbc_timeout_default_witness :
  (exists cfg, __init__ None = Ok cfg
               /\ cfg !! "cbc_timeout" = Some (VInt 10))
  /\ (exists cfg,
        __init__ (Some [("solver", VStr "cbc");
                        ("battery_dispatch", VStr "convex_LV")]) = Ok cfg
        /\ cfg !! "cbc_timeout" = Some (VInt 10)).
Proof.
  split.
  - apply (cbc_timeout_default None); [exact I | intros []].
  - apply (cbc_timeout_default
             (Some [("solver", VStr "cbc");
                    ("battery_dispatch", VStr "convex_LV")])).
    + split; [solve_wf|]. split; [solve_validation|].
      unfold known_variants. cbn. decide_closed.
    + simpl. decide_closed.
Defined.

(** C8.  The type check compares runtime types for equality.  A [bool]
    given to an [int] option is rejected with the wrong-data-type error
    although [bool] is a subclass of [int], and an [int] given to a [bool]
    option is rejected in the same way. *)
Theorem exact_type_equality pre key value post :
  passes_validation pre ->
  (option_type key = Some TInt /\ type_of value = TBool)
  \/ (option_type key = Some TBool /\ type_of value = TInt) ->
  __init__ (Some (pre ++ (key, value) :: post))
    = Raise (ValueError (wrong_type_msg key))
  /\ (type_of value = TBool -> isinstance value TInt = true).
Proof.
  intros Hpre Hcase. split.
  - rewrite (init_first_bad _ _ _ _ Hpre).
    + by destruct Hcase as [[-> _]|[-> _]].
    + destruct Hcase as [[-> ->]|[-> ->]]; discriminate.
  - unfold isinstance. by intros ->.
Qed.

Lemma exact_type_equality_witness :
  __init__ (Some [("cbc_timeout", VBool true)])
    = Raise (ValueError "'cbc_timeout' is the wrong data type.")
  /\ isinstance (VBool true) TInt = true
  /\ __init__ (Some [("grid_charging", VInt 1)])
     = Raise (ValueError "'grid_charging' is the wrong data type.").
Proof.
  split; [|split].
  - refine (proj1 (exact_type_equality [] "cbc_timeout" (VBool true) [] _ _)).
    + solve_validation.
    + left. split; reflexivity.
  - refine (proj2 (exact_type_equality [] "cbc_timeout" (VBool true) [] _ _)
                  eq_refl).
    + solve_validation.
    + left. split; reflexivity.
  - refine (proj1 (exact_type_equality [] "grid_charging" (VInt 1) [] _ _)).
    + solve_validation.
    + right. split; reflexivity.
Defined.

End ResolverClaims.

(** ** [CspPlant]: specification claims *)

Section CspPlantClaims.
Import Datetime CspPlant.

(** C9.  The required-key check of [CspPlant.__init__] raises only when
    all three of ['system_capacity_kw'], ['solar_multiple'] and
    ['tes_hours'] are absent; a configuration holding at least one of them
    passes the check, even when the other two are missing. *)
Theorem required_keys_all_absent (csp_config : gmap string pyval) :
  (check_required_keys csp_config = Raise (ValueError "") <->
   ("system_capacity_kw" ∉ dom csp_config)
   /\ ("solar_multiple" ∉ dom csp_config)
   /\ ("tes_hours" ∉ dom csp_config))
  /\ ((exists key, key ∈ required_keys /\ key ∈ dom csp_config) ->
      check_required_keys csp_config = Ok tt).
Proof.
  unfold check_required_keys, required_keys. simpl.
  destruct (decide ("system_capacity_kw" ∈ dom csp_config)) as [H1|H1];
    destruct (decide ("solar_multiple" ∈ dom csp_config)) as [H2|H2];
    destruct (decide ("tes_hours" ∈ dom csp_config)) as [H3|H3];
    rewrite ?(bool_decide_eq_true_2 _ H1), ?(bool_decide_eq_false_2 _ H1),
      ?(bool_decide_eq_true_2 _ H2), ?(bool_decide_eq_false_2 _ H2),
      ?(bool_decide_eq_true_2 _ H3), ?(bool_decide_eq_false_2 _ H3);
    simpl; (split; [split; [discriminate || done | tauto || done]|]);
    try done.
  intros (key & Hkey & Hdom).
  rewrite !elem_of_cons, elem_of_nil in Hkey.
  destruct Hkey as [->|[->|[->|[]]]]; done.
Qed.

Lemma required_keys_all_absent_witness :
  check_required_keys (<["tes_hours" := VInt 6]> ∅) = Ok tt.
Proof.
  apply (proj2 (required_keys_all_absent (<["tes_hours" := VInt 6]> ∅))).
  exists "tes_hours". split.
  - unfold required_keys. apply (bool_decide_unpack _); vm_compute; exact I.
  - apply elem_of_dom. vm_compute. eauto.
Defined.

(** *** [set_weather] *)

Section SetWeatherClaims.
Context {timestamp ssc_table : Type}.
Variable total_seconds_between : timestamp -> timestamp -> float.
Variable weather_df_to_ssc_table :
  list timestamp -> datetime -> datetime -> result ssc_table.

End SetWeatherClaims.


(** *** [seconds_since_newyear] *)

Lemma in_range_spec lo x hi : in_range lo x hi = true <-> lo <= x <= hi.
Proof. unfold in_range. rewrite andb_true_iff. lia. Qed.

Lemma datetime_new_valid y mo d h mi s us :
  valid (mk_datetime y mo d h mi s us) = true ->
  datetime_new y mo d h mi s us = Ok (mk_datetime y mo d h mi s us).
Proof.
  unfold valid, datetime_new. simpl. rewrite !andb_true_iff.
  intros [[[[[[-> ->] ->] ->] ->] ->] ->]. reflexivity.
Qed.

Lemma total_microseconds_new d s us :
  total_microseconds (timedelta_new d s us)
  = (d * 86400 + s) * 1000000 + us.
Proof.
  unfold total_microseconds, timedelta_new. simpl.
  set (t := (d * 86400 + s) * 1000000 + us).
  pose proof (Z.div_mod t 86400000000 ltac:(lia)) as H1.
  pose proof (Z.div_mod (t mod 86400000000) 1000000 ltac:(lia)) as H2.
  assert (H3 : t mod 1000000 = (t mod 86400000000) mod 1000000).
  { symmetry. apply Z.mod_mod_divide. exists 86400. lia. }
  lia.
Qed.

Lemma replace_year_same_fields a b y :
  same_except_year a b -> replace_year a y = replace_year b y.
Proof.
  intros (Hm & Hd & Hh & Hmi & Hs & Hus). unfold replace_year.
  by rewrite Hm, Hd, Hh, Hmi, Hs, Hus.
Qed.

(** Away from 29 February the day fits the same month of 2009. *)
Lemma valid_in_2009 dt :
  valid dt = true ->
  ~ (month dt = 2 /\ day dt = 29) ->
  valid (mk_datetime 2009 (month dt) (day dt) (hour dt) (minute dt)
                     (second dt) (microsecond dt)) = true.
Proof.
  destruct dt as [y mo d h mi s us]. unfold valid. simpl.
  rewrite !andb_true_iff, !in_range_spec.
  intros [[[[[[Hy Hmo] Hd] Hh] Hmi] Hs] Hus] Hleap.
  repeat split; try lia.
  assert (Hcases : mo = 1 \/ mo = 2 \/ mo = 3 \/ mo = 4 \/ mo = 5 \/ mo = 6
                   \/ mo = 7 \/ mo = 8 \/ mo = 9 \/ mo = 10 \/ mo = 11
                   \/ mo = 12) by lia.
  unfold days_in_month in *.
  destruct Hcases as [->|[->|[->|[->|[->|[->|[->|[->|[->|[->|[->| ->]]]]]]]]]]];
    simpl in *; try lia.
  destruct (is_leap y); simpl in *; lia.
Qed.

Lemma quot_whole_seconds t us r :
  0 <= us < 1000000 -> 0 <= r -> t = r * 1000000 + us ->
  Z.quot t 1000000 = r.
Proof.
  intros Hus Hr ->. rewrite Z.quot_div_nonneg by lia.
  symmetry. apply (Z.div_unique _ _ _ us); lia.
Qed.

Lemma days_before_month_2009 mo :
  1 <= mo <= 12 ->
  days_before_month 2009 mo = days_before_month_365 mo
  /\ 0 <= days_before_month_365 mo.
Proof.
  intros Hmo.
  assert (Hcases : mo = 1 \/ mo = 2 \/ mo = 3 \/ mo = 4 \/ mo = 5 \/ mo = 6
                   \/ mo = 7 \/ mo = 8 \/ mo = 9 \/ mo = 10 \/ mo = 11
                   \/ mo = 12) by lia.
  destruct Hcases as [->|[->|[->|[->|[->|[->|[->|[->|[->|[->|[->| ->]]]]]]]]]]];
    split; (reflexivity || discriminate).
Qed.

Lemma seconds_since_newyear_value dt :
  valid dt = true ->
  ~ (month dt = 2 /\ day dt = 29) ->
  seconds_since_newyear dt = Ok (elapsed_seconds_365 dt).
Proof.
  intros Hvalid Hleap.
  pose proof (valid_in_2009 dt Hvalid Hleap) as H2009.
  unfold seconds_since_newyear, replace_year.
  rewrite (datetime_new_valid _ _ _ _ _ _ _ H2009).
  unfold mbind, result_bind. f_equal.
  unfold int_total_seconds, sub. rewrite total_microseconds_new.
  destruct dt as [y mo d h mi s us].
  unfold valid in Hvalid. simpl in Hvalid.
  rewrite !andb_true_iff, !in_range_spec in Hvalid.
  destruct Hvalid as [[[[[[Hy Hmo] Hd] Hh] Hmi] Hs] Hus].
  destruct (days_before_month_2009 mo Hmo) as [Hdbm Hnonneg].
  unfold elapsed_seconds_365, toordinal, ymd2ord, newyear.
  cbn [year month day hour minute second microsecond].
  rewrite Hdbm.
  change (days_before_year 2009) with 733407.
  change (days_before_month 2009 1) with 0.
  apply (quot_whole_seconds _ us); lia.
Qed.

(** C10 (as stated, refuted).  29 February 2008 and 29 February 2012, both
    at 12:00, differ in the year only; on both [seconds_since_newyear]
    raises [ValueError] and returns no value, since 2009 has no such
    day. *)
Lemma leap_day_counterexample :
  let dt1 := mk_datetime 2008 2 29 12 0 0 0 in
  let dt2 := mk_datetime 2012 2 29 12 0 0 0 in
  valid dt1 = true /\ valid dt2 = true /\ same_except_year dt1 dt2
  /\ seconds_since_newyear dt1
     = Raise (ValueError "day is out of range for month")
  /\ seconds_since_newyear dt2
     = Raise (ValueError "day is out of range for month")
  /\ ~ (exists n, seconds_since_newyear dt1 = Ok n).
Proof.
  cbv zeta. repeat split; try reflexivity.
  intros [n Hn]. vm_compute in Hn. discriminate.
Qed.

(** C10 (amended).  Two datetimes that differ in the year only give the
    same outcome.  When the date is not 29 February that outcome is the
    whole number of seconds from 1 January 00:00:00 to the same month, day
    and time of day in the non-leap year 2009; on 29 February it is a
    [ValueError]. *)
Theorem seconds_since_newyear_year_invariant dt1 dt2 :
  valid dt1 = true ->
  valid dt2 = true ->
  same_except_year dt1 dt2 ->
  seconds_since_newyear dt1 = seconds_since_newyear dt2
  /\ (~ (month dt1 = 2 /\ day dt1 = 29) ->
      seconds_since_newyear dt1 = Ok (elapsed_seconds_365 dt1)
      /\ seconds_since_newyear dt2 = Ok (elapsed_seconds_365 dt1))
  /\ (month dt1 = 2 /\ day dt1 = 29 ->
      seconds_since_newyear dt1
      = Raise (ValueError "day is out of range for month")).
Proof.
  intros Hv1 Hv2 Hsame.
  assert (Heq : seconds_since_newyear dt1 = seconds_since_newyear dt2).
  { unfold seconds_since_newyear.
    by rewrite (replace_year_same_fields dt1 dt2 2009 Hsame). }
  split; [done|]. split.
  - intros Hleap. rewrite <- Heq.
    split; by apply seconds_since_newyear_value.
  - intros [Hm Hd]. destruct dt1 as [y mo d h mi s us]. simpl in *.
    subst. reflexivity.
Qed.

Lemma seconds_since_newyear_year_invariant_witness :
  seconds_since_newyear (mk_datetime 1900 12 31 23 59 59 999999)
  = seconds_since_newyear (mk_datetime 2024 12 31 23 59 59 999999)
  /\ seconds_since_newyear (mk_datetime 1900 12 31 23 59 59 999999)
     = Ok 31535999.
Proof.
  pose proof (seconds_since_newyear_year_invariant
                (mk_datetime 1900 12 31 23 59 59 999999)
                (mk_datetime 2024 12 31 23 59 59 999999)
                eq_refl eq_refl
                (conj eq_refl (conj eq_refl (conj eq_refl
                   (conj eq_refl (conj eq_refl eq_refl))))))
    as (Heq & Hval & _).
  split; [exact Heq|].
  apply Hval. simpl. intros [H _]. discriminate.
Defined.

(** The double-precision quotient [total_seconds] computes has the integer
    part used by [int_total_seconds], here at the last microsecond of the
    year. *)
Example total_seconds_float_last_microsecond :
  (PyFloat.truediv 31535999999999%float 1000000%float ≫= PyFloat.to_int)
  = Ok 31535999.
Proof. vm_compute. reflexivity. Qed.

End CspPlantClaims.

(** ** The dispatch option resolver: further properties *)

Section ResolverProperties.
Import HybridDispatchOptions Spec.


(** The shape of every configuration the constructor returns. *)
Lemma init_shape dispatch_options cfg :
  __init__ dispatch_options = Ok cfg ->
  exists self name cls,
    (forall key, type_of <$> (self !! key) = option_type key)
    /\ self !! "battery_dispatch" = Some (VStr name)
    /\ dict_get _battery_dispatch_model_options name = Some cls
    /\ cfg =
         let self1 :=
           <["battery_dispatch_class" := VClass cls]>
             (<["_battery_dispatch_model_options" := model_options_value]>
                self) in
         if str_contains "heuristic" name
         then <["n_look_ahead_periods" := VInt 24]>
                (<["n_roll_periods" := VInt 24]> self1)
         else self1.
Proof.
  intros H.
  assert (Hself : exists self,
             (forall key, type_of <$> (self !! key) = option_type key)
             /\ resolve_battery_dispatch self = Ok cfg).
  { destruct dispatch_options as [opts|].
    - rewrite init_some in H.
      destruct (merge_options defaults opts) as [self|e] eqn:Hm;
        [|discriminate].
      exists self. split; [|exact H].
      intros key. rewrite (merge_options_types _ _ _ Hm).
      apply defaults_type.
    - exists defaults. split; [apply defaults_type | exact H]. }
  destruct Hself as (self & Hty & Hres).
  pose proof (Hty "battery_dispatch") as Hbd.
  destruct (self !! "battery_dispatch") as [[name| | | | | | | |]|] eqn:E;
    try discriminate.
  destruct (dict_get _battery_dispatch_model_options name) as [cls|] eqn:Hc.
  - rewrite (resolve_known _ _ _ E Hc) in Hres. injection Hres as <-.
    by exists self, name, cls.
  - rewrite (resolve_unknown _ _ E Hc) in Hres. discriminate.
Qed.










(** X5.  In every configuration the constructor returns,
    [battery_dispatch] is a known variant name and
    [battery_dispatch_class] is the class the variant table maps that name
    to. *)
Theorem dispatch_class_matches_variant dispatch_options cfg :
  __init__ dispatch_options = Ok cfg ->
  exists name cls,
    cfg !! "battery_dispatch" = Some (VStr name)
    /\ name ∈ known_variants
    /\ dict_get _battery_dispatch_model_options name = Some cls
    /\ cfg !! "battery_dispatch_class" = Some (VClass cls).
Proof.
  intros H.
  destruct (init_shape _ _ H) as (self & name & cls & _ & Hbd & Hc & ->).
  exists name, cls. cbv zeta.
  assert (Hknown : name ∈ known_variants).
  { apply known_variants_table. eauto. }
  destruct (str_contains "heuristic" name);
    rewrite !lookup_insert_ne by done;
    rewrite lookup_insert_eq; by rewrite ?lookup_insert_ne by done.
Qed.

Lemma dispatch_class_matches_variant_witness :
  exists name cls,
    <["battery_dispatch_class" := VClass "SimpleBatteryDispatch"]>
      (<["_battery_dispatch_model_options" := model_options_value]> defaults)
      !! "battery_dispatch" = Some (VStr name)
    /\ name ∈ known_variants
    /\ dict_get _battery_dispatch_model_options name = Some cls
    /\ <["battery_dispatch_class" := VClass "SimpleBatteryDispatch"]>
         (<["_battery_dispatch_model_options" := model_options_value]>
            defaults)
         !! "battery_dispatch_class" = Some (VClass cls).
Proof.
  exact (dispatch_class_matches_variant None _ init_none).
Defined.





End ResolverProperties.

(** ** [CspPlant]: further properties *)

Section CspPlantProperties.
Import Datetime CspPlant.

Lemma valid_fields dt :
  valid dt = true ->
  ~ (month dt = 2 /\ day dt = 29) ->
  1 <= month dt <= 12
  /\ 1 <= day dt <= days_in_month 2009 (month dt)
  /\ 0 <= hour dt <= 23 /\ 0 <= minute dt <= 59 /\ 0 <= second dt <= 59.
Proof.
  intros Hvalid Hleap.
  pose proof (valid_in_2009 dt Hvalid Hleap) as H.
  unfold valid in H. simpl in H.
  rewrite !andb_true_iff, !in_range_spec in H. tauto.
Qed.

(** The day number within 2009 determines the month. *)
Lemma day_of_year_month mo d :
  1 <= mo <= 12 ->
  1 <= d <= days_in_month 2009 mo ->
  (mo = 1 /\ 1 <= days_before_month_365 mo + d <= 31)
  \/ (mo = 2 /\ 32 <= days_before_month_365 mo + d <= 59)
  \/ (mo = 3 /\ 60 <= days_before_month_365 mo + d <= 90)
  \/ (mo = 4 /\ 91 <= days_before_month_365 mo + d <= 120)
  \/ (mo = 5 /\ 121 <= days_before_month_365 mo + d <= 151)
  \/ (mo = 6 /\ 152 <= days_before_month_365 mo + d <= 181)
  \/ (mo = 7 /\ 182 <= days_before_month_365 mo + d <= 212)
  \/ (mo = 8 /\ 213 <= days_before_month_365 mo + d <= 243)
  \/ (mo = 9 /\ 244 <= days_before_month_365 mo + d <= 273)
  \/ (mo = 10 /\ 274 <= days_before_month_365 mo + d <= 304)
  \/ (mo = 11 /\ 305 <= days_before_month_365 mo + d <= 334)
  \/ (mo = 12 /\ 335 <= days_before_month_365 mo + d <= 365).
Proof.
  intros Hmo Hd.
  assert (Hcases : mo = 1 \/ mo = 2 \/ mo = 3 \/ mo = 4 \/ mo = 5 \/ mo = 6
                   \/ mo = 7 \/ mo = 8 \/ mo = 9 \/ mo = 10 \/ mo = 11
                   \/ mo = 12) by lia.
  destruct Hcases as [->|[->|[->|[->|[->|[->|[->|[->|[->|[->|[->| ->]]]]]]]]]]];
    match type of Hd with
    | context [days_in_month 2009 ?m] =>
        let v := eval vm_compute in (days_in_month 2009 m) in
        change (days_in_month 2009 m) with v in Hd
    end;
    cbn [days_before_month_365]; lia.
Qed.

(** X7.  For every valid datetime that is not on 29 February,
    [seconds_since_newyear] returns a number of seconds within one year of
    8760 hours. *)
Theorem seconds_since_newyear_range dt :
  valid dt = true ->
  ~ (month dt = 2 /\ day dt = 29) ->
  exists s,
    seconds_since_newyear dt = Ok s /\ 0 <= s < 8760 * 3600.
Proof.
  intros Hvalid Hleap.
  exists (elapsed_seconds_365 dt).
  split; [by apply seconds_since_newyear_value|].
  destruct (valid_fields dt Hvalid Hleap) as (Hmo & Hd & Hh & Hmi & Hs).
  pose proof (day_of_year_month _ _ Hmo Hd) as Hday.
  unfold elapsed_seconds_365. lia.
Qed.

Lemma seconds_since_newyear_range_witness :
  exists s,
    seconds_since_newyear (mk_datetime 2020 3 1 0 0 0 0) = Ok s
    /\ 0 <= s < 8760 * 3600.
Proof.
  apply (seconds_since_newyear_range (mk_datetime 2020 3 1 0 0 0 0)).
  - reflexivity.
  - simpl. intros [H _]. discriminate.
Defined.

(** X8.  Two valid datetimes, neither on 29 February, get the same value
    exactly when they agree on month, day, hour, minute and second: the year
    and the microseconds are ignored and nothing else is. *)
Theorem seconds_since_newyear_same_iff dt1 dt2 :
  valid dt1 = true ->
  valid dt2 = true ->
  ~ (month dt1 = 2 /\ day dt1 = 29) ->
  ~ (month dt2 = 2 /\ day dt2 = 29) ->
  seconds_since_newyear dt1 = seconds_since_newyear dt2 <->
  month dt1 = month dt2 /\ day dt1 = day dt2 /\ hour dt1 = hour dt2
  /\ minute dt1 = minute dt2 /\ second dt1 = second dt2.
Proof.
  intros Hv1 Hv2 Hl1 Hl2.
  rewrite (seconds_since_newyear_value dt1 Hv1 Hl1),
    (seconds_since_newyear_value dt2 Hv2 Hl2).
  destruct (valid_fields dt1 Hv1 Hl1) as (Hmo1 & Hd1 & Hh1 & Hmi1 & Hs1).
  destruct (valid_fields dt2 Hv2 Hl2) as (Hmo2 & Hd2 & Hh2 & Hmi2 & Hs2).
  pose proof (day_of_year_month _ _ Hmo1 Hd1) as Hday1.
  pose proof (day_of_year_month _ _ Hmo2 Hd2) as Hday2.
  unfold elapsed_seconds_365. split.
  - intros [= Heq].
    assert (Hday : days_before_month_365 (month dt1) + day dt1
                   = days_before_month_365 (month dt2) + day dt2) by lia.
    assert (Hmo : month dt1 = month dt2) by lia.
    rewrite Hmo in *. repeat split; lia.
  - intros (-> & -> & -> & -> & ->). reflexivity.
Qed.

Lemma seconds_since_newyear_same_iff_witness :
  seconds_since_newyear (mk_datetime 2011 7 4 12 30 15 250000)
  = seconds_since_newyear (mk_datetime 2024 7 4 12 30 15 0).
Proof.
  apply (seconds_since_newyear_same_iff
           (mk_datetime 2011 7 4 12 30 15 250000)
           (mk_datetime 2024 7 4 12 30 15 0)).
  - reflexivity.
  - reflexivity.
  - simpl. intros [H _]. discriminate.
  - simpl. intros [H _]. discriminate.
  - repeat split.
Defined.

Section SetWeatherProperties.
Context {timestamp ssc_table : Type}.
Variable total_seconds_between : timestamp -> timestamp -> float.
Variable weather_df_to_ssc_table :
  list timestamp -> datetime -> datetime -> result ssc_table.

(** X9.  A weather frame with fewer than two rows makes [set_weather]
    raise [IndexError]: the time step is taken from the first two index
    entries before anything else is looked at. *)
Theorem short_weather_index_raises
        (ssc : ssc_state ssc_table) (weather_index : list timestamp)
        (start_datetime end_datetime : datetime) :
  (length weather_index < 2)%nat ->
  exists msg,
    set_weather timestamp total_seconds_between ssc_table
                weather_df_to_ssc_table ssc weather_index
                start_datetime end_datetime
    = Raise (IndexError msg).
Proof.
  intros Hlen. unfold set_weather, weather_time_steps_per_hour, index_at.
  rewrite (lookup_ge_None_2 weather_index 1) by lia.
  eexists. reflexivity.
Qed.

(** X10.  When the first two index entries are zero seconds apart,
    [set_weather] raises [ZeroDivisionError] instead of reporting a
    granularity mismatch. *)
Theorem repeated_timestamp_raises
        (ssc : ssc_state ssc_table) (weather_index : list timestamp)
        (start_datetime end_datetime : datetime) (t0 t1 : timestamp) :
  weather_index !! 0%nat = Some t0 ->
  weather_index !! 1%nat = Some t1 ->
  total_seconds_between t0 t1 = 0%float ->
  set_weather timestamp total_seconds_between ssc_table
              weather_df_to_ssc_table ssc weather_index
              start_datetime end_datetime
  = Raise (ZeroDivisionError "float division by zero").
Proof.
  intros H0 H1 Hzero.
  unfold set_weather, weather_time_steps_per_hour, index_at.
  rewrite H1, H0. unfold mbind, result_bind. rewrite Hzero.
  reflexivity.
Qed.

End SetWeatherProperties.

Lemma short_weather_index_raises_witness :
  exists msg,
    set_weather float (fun t0 t1 => PrimFloat.sub t1 t0) unit
                (fun _ _ _ => Ok tt) (mk_ssc unit 1 None)
                [0%float] newyear newyear
    = Raise (IndexError msg).
Proof.
  apply (short_weather_index_raises
           (fun t0 t1 => PrimFloat.sub t1 t0) (fun _ _ _ => Ok tt)
           (mk_ssc unit 1 None) [0%float] newyear newyear).
  simpl. lia.
Defined.

Lemma repeated_timestamp_raises_witness :
  set_weather float (fun t0 t1 => PrimFloat.sub t1 t0) unit
              (fun _ _ _ => Ok tt) (mk_ssc unit 1 None)
              [1800%float; 1800%float; 5400%float] newyear newyear
  = Raise (ZeroDivisionError "float division by zero").
Proof.
  apply (repeated_timestamp_raises
           (fun t0 t1 => PrimFloat.sub t1 t0) (fun _ _ _ => Ok tt)
           (mk_ssc unit 1 None) [1800%float; 1800%float; 5400%float]
           newyear newyear 1800%float 1800%float).
  - reflexivity.
  - reflexivity.
  - vm_compute. reflexivity.
Defined.

End CspPlantProperties.

(** ** Padding of the weather table: properties *)

Section PaddingProperties.
Import SolarResourcePadding.

Lemma length_zeros k : length (zeros k) = Z.to_nat k.
Proof. apply length_replicate. Qed.

Lemma pad_list_length front back column :
  length (pad_list front back column)
  = (length front + length column + length back)%nat.
Proof. unfold pad_list. rewrite !length_app. lia. Qed.

Lemma pad_list_data front back column (j : nat) v :
  column !! j = Some v ->
  pad_list front back column !! (length front + j)%nat = Some v.
Proof.
  intros H. unfold pad_list.
  rewrite lookup_app_r by lia.
  replace (length front + j - length front)%nat with j by lia.
  by apply lookup_app_l_Some.
Qed.

Lemma pad_list_front k back column (i : nat) :
  (i < Z.to_nat k)%nat ->
  pad_list (zeros k) back column !! i = Some (VInt 0).
Proof.
  intros H. unfold pad_list.
  rewrite lookup_app_l by (rewrite length_zeros; lia).
  by apply lookup_replicate_2.
Qed.

Lemma pad_list_back front k column (i : nat) :
  (length front + length column <= i)%nat ->
  (i < length front + length column + Z.to_nat k)%nat ->
  pad_list front (zeros k) column !! i = Some (VInt 0).
Proof.
  intros Hlo Hhi. unfold pad_list.
  rewrite lookup_app_r by lia. rewrite lookup_app_r by lia.
  apply lookup_replicate_2. lia.
Qed.

Lemma pad_unfold srd datetime_start timestep steps_per_hour i0 :
  datetime_at srd 0 = Ok datetime_start ->
  padding_timestep srd datetime_start = Ok timestep ->
  steps_per_hour_of timestep = Ok steps_per_hour ->
  start_index_of datetime_start timestep = Ok i0 ->
  pad_solar_resource_data srd =
    let diff := 8760 * steps_per_hour - Z.of_nat (length (dn srd)) in
    if 0 <? diff
    then Ok (Some (pad_entries (zeros i0) (zeros (diff - i0)) srd))
    else Ok None.
Proof.
  intros H0 Hts Hsph Hi0. unfold pad_solar_resource_data.
  rewrite H0. unfold mbind at 1, result_bind at 1.
  rewrite Hts. unfold mbind at 1, result_bind at 1.
  rewrite Hsph. unfold mbind at 1, result_bind at 1.
  rewrite Hi0. reflexivity.
Qed.

(** X11.  When the table has fewer rows than the year has steps and the
    first row's index [i0] leaves room for them, every column of the padded
    table has exactly [8760 * steps_per_hour] entries: the original entries
    at offset [i0], in order, and the integer 0 everywhere else. *)
Theorem padding_fills_year srd datetime_start timestep steps_per_hour i0 :
  datetime_at srd 0 = Ok datetime_start ->
  padding_timestep srd datetime_start = Ok timestep ->
  steps_per_hour_of timestep = Ok steps_per_hour ->
  start_index_of datetime_start timestep = Ok i0 ->
  Z.of_nat (length (dn srd)) < 8760 * steps_per_hour ->
  0 <= i0 <= 8760 * steps_per_hour - Z.of_nat (length (dn srd)) ->
  exists padded,
    pad_solar_resource_data srd = Ok (Some padded)
    /\ forall (c : nat) column,
        columns srd !! c = Some column ->
        length column = length (dn srd) ->
        exists padded_column,
          columns padded !! c = Some padded_column
          /\ Z.of_nat (length padded_column) = 8760 * steps_per_hour
          /\ (forall (j : nat) v,
                column !! j = Some v ->
                padded_column !! (Z.to_nat i0 + j)%nat = Some v)
          /\ (forall i : nat,
                (i < Z.to_nat i0)%nat
                \/ (Z.to_nat i0 + length column <= i)%nat
                   /\ Z.of_nat i < 8760 * steps_per_hour ->
                padded_column !! i = Some (VInt 0)).
Proof.
  intros H0 Hts Hsph Hi0 Hn Hroom.
  set (diff := 8760 * steps_per_hour - Z.of_nat (length (dn srd))).
  exists (pad_entries (zeros i0) (zeros (diff - i0)) srd).
  split.
  { rewrite (pad_unfold _ _ _ _ _ H0 Hts Hsph Hi0). cbv zeta.
    fold diff. by rewrite (proj2 (Z.ltb_lt 0 diff)) by (subst diff; lia). }
  intros c column Hc Hlen.
  exists (pad_list (zeros i0) (zeros (diff - i0)) column).
  assert (Hcol : columns (pad_entries (zeros i0) (zeros (diff - i0)) srd)
                 = map (pad_list (zeros i0) (zeros (diff - i0)))
                       (columns srd)) by reflexivity.
  split.
  { rewrite Hcol. change map with (@fmap list _) at 1.
    rewrite list_lookup_fmap, Hc. reflexivity. }
  split.
  { rewrite pad_list_length, !length_zeros, Hlen. subst diff. lia. }
  split.
  - intros j v Hj. rewrite <- (length_zeros i0). by apply pad_list_data.
  - intros i [Hfront|[Hlo Hhi]].
    + by apply pad_list_front.
    + apply pad_list_back; rewrite length_zeros; [lia|].
      rewrite Hlen. subst diff. lia.
Qed.

(** X12.  When the table already has at least [8760 * steps_per_hour]
    rows, [pad_solar_resource_data] returns [None] rather than the
    table. *)
Theorem full_year_table_returns_none
        srd datetime_start timestep steps_per_hour i0 :
  datetime_at srd 0 = Ok datetime_start ->
  padding_timestep srd datetime_start = Ok timestep ->
  steps_per_hour_of timestep = Ok steps_per_hour ->
  start_index_of datetime_start timestep = Ok i0 ->
  8760 * steps_per_hour <= Z.of_nat (length (dn srd)) ->
  pad_solar_resource_data srd = Ok None.
Proof.
  intros H0 Hts Hsph Hi0 Hn.
  rewrite (pad_unfold _ _ _ _ _ H0 Hts Hsph Hi0). cbv zeta.
  by rewrite (proj2 (Z.ltb_ge _ _)) by lia.
Qed.

(** X13.  A table without rows makes [pad_solar_resource_data] raise
    [IndexError]. *)
Theorem empty_table_raises srd :
  year srd = [] ->
  exists msg, pad_solar_resource_data srd = Raise (IndexError msg).
Proof.
  intros Hempty. unfold pad_solar_resource_data, datetime_at, item.
  rewrite Hempty. eexists. reflexivity.
Qed.

Lemma datetime_new_inv y mo d h mi s us a :
  Datetime.datetime_new y mo d h mi s us = Ok a ->
  a = Datetime.mk_datetime y mo d h mi s us.
Proof.
  unfold Datetime.datetime_new. intros H.
  repeat match type of H with
         | (if ?b then _ else _) = _ => destruct b; [discriminate|]
         end.
  by injection H as <-.
Qed.

Lemma datetime_at_inv srd i a :
  datetime_at srd i = Ok a ->
  Datetime.second a = 0 /\ Datetime.microsecond a = 0.
Proof.
  unfold datetime_at. intros H.
  repeat match type of H with
         | (mbind _ ?m) = _ =>
             destruct m as [?|?] eqn:?; unfold mbind at 1, result_bind at 1 in H;
             [|discriminate]
         end.
  apply datetime_new_inv in H. by subst a.
Qed.

Lemma whole_days_have_no_seconds (a b : Datetime.datetime) :
  Datetime.hour a = Datetime.hour b ->
  Datetime.minute a = Datetime.minute b ->
  Datetime.second a = Datetime.second b ->
  Datetime.microsecond a = Datetime.microsecond b ->
  Datetime.td_seconds (Datetime.sub b a) = 0.
Proof.
  intros Hh Hm Hs Hus. unfold Datetime.sub, Datetime.timedelta_new. simpl.
  rewrite Hh, Hm, Hs, Hus, !Z.sub_diag.
  set (D := Datetime.toordinal b - Datetime.toordinal a).
  replace ((D * 86400 + 0) * 1000000 + 0) with (D * 86400000000) by lia.
  by rewrite Z.mod_mul by lia.
Qed.

(** X14.  When the first two rows carry the same time of day, such as a
    repeated timestamp or daily data, the time step has no seconds and
    [pad_solar_resource_data] raises [ZeroDivisionError]. *)
Theorem same_time_of_day_raises srd a b :
  (2 <= length (dn srd))%nat ->
  datetime_at srd 0 = Ok a ->
  datetime_at srd 1 = Ok b ->
  Datetime.hour a = Datetime.hour b ->
  Datetime.minute a = Datetime.minute b ->
  pad_solar_resource_data srd = Raise (ZeroDivisionError "division by zero").
Proof.
  intros Hlen Ha Hb Hh Hm.
  destruct (datetime_at_inv _ _ _ Ha) as [Hsa Husa].
  destruct (datetime_at_inv _ _ _ Hb) as [Hsb Husb].
  assert (Hts : padding_timestep srd a = Ok (Datetime.sub b a)).
  { unfold padding_timestep.
    rewrite (proj2 (Z.ltb_ge _ _)) by lia. by rewrite Hb. }
  assert (Hsph : steps_per_hour_of (Datetime.sub b a)
                 = Raise (ZeroDivisionError "division by zero")).
  { unfold steps_per_hour_of, int_truediv.
    by rewrite whole_days_have_no_seconds by congruence. }
  unfold pad_solar_resource_data. rewrite Ha.
  unfold mbind at 1, result_bind at 1. rewrite Hts.
  unfold mbind at 1, result_bind at 1. by rewrite Hsph.
Qed.

(** X15.  An hourly table that starts on 1 January at 00:00 with fewer
    than 8760 rows is padded at the back only: every column keeps its
    entries and is followed by [8760 - n] zeros. *)
Theorem hourly_table_from_new_year srd y :
  datetime_at srd 0 = Ok (Datetime.mk_datetime y 1 1 0 0 0 0) ->
  datetime_at srd 1 = Ok (Datetime.mk_datetime y 1 1 1 0 0 0) ->
  2 <= Z.of_nat (length (dn srd)) < 8760 ->
  exists padded,
    pad_solar_resource_data srd = Ok (Some padded)
    /\ columns padded
       = map (fun column =>
                column ++ zeros (8760 - Z.of_nat (length (dn srd))))
             (columns srd).
Proof.
  intros H0 H1 Hlen.
  assert (Hts : padding_timestep srd (Datetime.mk_datetime y 1 1 0 0 0 0)
                = Ok (Datetime.mk_timedelta 0 3600 0)).
  { unfold padding_timestep.
    rewrite (proj2 (Z.ltb_ge _ _)) by lia. rewrite H1.
    unfold mbind, result_bind, Datetime.sub, Datetime.toordinal.
    cbn [Datetime.year Datetime.month Datetime.day Datetime.hour
         Datetime.minute Datetime.second Datetime.microsecond].
    rewrite Z.sub_diag. reflexivity. }
  assert (Hsph : steps_per_hour_of (Datetime.mk_timedelta 0 3600 0) = Ok 1).
  { vm_compute. reflexivity. }
  assert (Hi0 : start_index_of (Datetime.mk_datetime y 1 1 0 0 0 0)
                               (Datetime.mk_timedelta 0 3600 0) = Ok 0).
  { unfold start_index_of, Datetime.replace_year.
    cbn [Datetime.year Datetime.month Datetime.day Datetime.hour
         Datetime.minute Datetime.second Datetime.microsecond].
    vm_compute. reflexivity. }
  rewrite (pad_unfold _ _ _ _ _ H0 Hts Hsph Hi0). cbv zeta.
  rewrite (proj2 (Z.ltb_lt _ _)) by lia.
  eexists. split; [reflexivity|].
  replace (8760 * 1 - Z.of_nat (length (dn srd)) - 0)
    with (8760 - Z.of_nat (length (dn srd))) by lia.
  reflexivity.
Qed.

End PaddingProperties.

Section PaddingWitnesses.
Import SolarResourcePadding.

Lemma padding_fills_year_witness :
  exists padded,
    pad_solar_resource_data (sample_rows 2) = Ok (Some padded)
    /\ exists padded_dn,
         columns padded !! 5%nat = Some padded_dn
         /\ Z.of_nat (length padded_dn) = 8760
         /\ padded_dn !! 3%nat = Some (VFloat 10)
         /\ padded_dn !! 1%nat = Some (VInt 0).
Proof.
  destruct (padding_fills_year
              (sample_rows 2) (Datetime.mk_datetime 2015 1 1 2 0 0 0)
              (Datetime.mk_timedelta 0 3600 0) 1 2)
    as (padded & Hpad & Hcols).
  - vm_compute. reflexivity.
  - vm_compute. reflexivity.
  - vm_compute. reflexivity.
  - vm_compute. reflexivity.
  - simpl. lia.
  - simpl. lia.
  - exists padded. split; [exact Hpad|].
    destruct (Hcols 5%nat (dn (sample_rows 2)) eq_refl eq_refl)
      as (padded_dn & Hc & Hlen & Hdata & Hzero).
    exists padded_dn. split; [exact Hc|]. split; [exact Hlen|]. split.
    + exact (Hdata 1%nat (VFloat 10) eq_refl).
    + apply Hzero. left. simpl. lia.
Defined.

Lemma full_year_table_returns_none_witness :
  pad_solar_resource_data
    (mk_solar_resource_data
       (VInt (-7)) (VFloat 1829) (VFloat 40) (VFloat (-105))
       [VInt 2015; VInt 2015] [VInt 1; VInt 1] [VInt 1; VInt 1]
       [VInt 0; VInt 1] [VInt 0; VInt 0]
       (replicate (Z.to_nat 8760) (VFloat 0)) [] [] [] [] [] [])
  = Ok None.
Proof.
  apply (full_year_table_returns_none
           _ (Datetime.mk_datetime 2015 1 1 0 0 0 0)
           (Datetime.mk_timedelta 0 3600 0) 1 0).
  - vm_compute. reflexivity.
  - unfold padding_timestep. cbn [dn]. rewrite length_replicate.
    vm_compute. reflexivity.
  - vm_compute. reflexivity.
  - vm_compute. reflexivity.
  - cbn [dn]. rewrite length_replicate. lia.
Defined.

Lemma empty_table_raises_witness :
  exists msg,
    pad_solar_resource_data
      (mk_solar_resource_data
         (VInt (-7)) (VFloat 1829) (VFloat 40) (VFloat (-105))
         [] [] [] [] [] [] [] [] [] [] [] [])
    = Raise (IndexError msg).
Proof.
  apply empty_table_raises. reflexivity.
Defined.

Lemma same_time_of_day_raises_witness :
  pad_solar_resource_data
    (mk_solar_resource_data
       (VInt (-7)) (VFloat 1829) (VFloat 40) (VFloat (-105))
       [VInt 2015; VInt 2015] [VInt 6; VInt 6] [VInt 1; VInt 2]
       [VInt 12; VInt 12] [VInt 0; VInt 0]
       [VFloat 700; VFloat 710] [] [] [] [] [] [])
  = Raise (ZeroDivisionError "division by zero").
Proof.
  apply (same_time_of_day_raises
           _ (Datetime.mk_datetime 2015 6 1 12 0 0 0)
           (Datetime.mk_datetime 2015 6 2 12 0 0 0)).
  - simpl. lia.
  - vm_compute. reflexivity.
  - vm_compute. reflexivity.
  - reflexivity.
  - reflexivity.
Defined.

Lemma hourly_table_from_new_year_witness :
  exists padded,
    pad_solar_resource_data (sample_rows 0) = Ok (Some padded)
    /\ columns padded
       = map (fun column => column ++ zeros 8757) (columns (sample_rows 0)).
Proof.
  apply (hourly_table_from_new_year (sample_rows 0) 2015).
  - vm_compute. reflexivity.
  - vm_compute. reflexivity.
  - simpl. lia.
Defined.

End PaddingWitnesses.

(** ** [SolarLayout]: properties *)

Section SolarLayoutProperties.
Import SolarLayout.
Context {polygon strand solar_bounds : Type}.
Variable find_best_solar_size :
  layout polygon strand -> float -> option SolarGridParameters ->
  outcome (Z * list strand * polygon * solar_bounds).
Variable make_buffer_region :
  layout polygon strand -> solar_bounds -> option SolarGridParameters ->
  outcome polygon.
Variable excess_buffer_penalty : layout polygon strand -> outcome float.

Local Abbreviation reset :=
  (reset_solargrid polygon strand solar_bounds find_best_solar_size
                   make_buffer_region excess_buffer_penalty).
Local Abbreviation set_params :=
  (set_layout_params polygon strand solar_bounds find_best_solar_size
                     make_buffer_region excess_buffer_penalty).
Local Abbreviation set_capacity :=
  (set_system_capacity polygon strand solar_bounds find_best_solar_size
                       make_buffer_region excess_buffer_penalty).

Lemma reset_detailed_raises self solar_capacity_kw params :
  is_Pvsamv1 (_system_model polygon strand self) = true ->
  exists final e, reset self solar_capacity_kw params = (final, Raises e).
Proof.
  destruct self as [model ms mp mw mh mps pars nm st sr br]. cbn.
  intros Hmodel. unfold reset_solargrid, _get_system_config. cbn.
  destruct model as [|mm w l v i ps s2 s3 s4]; [discriminate|].
  destruct (PrimFloat.eqb mm 1); [|eauto].
  destruct (truthy s2 || truthy s3 || truthy s4); [eauto|].
  destruct (find_best_solar_size _ _ _) as [[[[n st'] sol] bounds]|e];
    [|eauto].
  destruct (make_buffer_region _ _ _) as [buffer|e]; [|eauto].
  destruct (excess_buffer_penalty _) as [penalty|e]; [|eauto].
  cbn. eauto.
Qed.


(** X17.  A detailed ([Pvsamv1]) model cannot be laid out: for it
    [reset_solargrid] and [set_layout_params] always raise, and
    [set_system_capacity] raises whenever grid parameters are set; without
    parameters [set_system_capacity] does nothing. *)
Theorem detailed_model_cannot_be_laid_out self :
  is_Pvsamv1 (_system_model polygon strand self) = true ->
  (forall solar_capacity_kw params,
      exists final e,
        reset self solar_capacity_kw params = (final, Raises e))
  /\ (forall params,
        exists final e, set_params self params = (final, Raises e))
  /\ (forall size_kw,
        match parameters polygon strand self with
        | Some _ => exists final e,
                      set_capacity self size_kw = (final, Raises e)
        | None => set_capacity self size_kw = (self, Return tt)
        end).
Proof.
  intros Hmodel. split; [|split].
  - intros. by apply reset_detailed_raises.
  - intros params. unfold set_layout_params.
    destruct (reset_detailed_raises self
                (PrimFloat.mul (module_power polygon strand self)
                   (SolarResourcePadding.float_of_int
                      (num_modules polygon strand self)))
                (Some params) Hmodel) as (final & e & ->).
    eauto.
  - intros size_kw. unfold set_system_capacity.
    destruct (parameters polygon strand self) as [p|]; [|done].
    destruct (reset_detailed_raises self size_kw (Some p) Hmodel)
      as (final & e & ->).
    eauto.
Qed.

(** X18.  When a detailed model with the CEC module database has a second,
    third or fourth subarray enabled, [reset_solargrid] raises
    [NotImplementedError], but the layout it leaves behind has already taken
    the new grid parameters and the module data of the model. *)
Theorem failed_subarray_check_keeps_module_data
        self solar_capacity_kw params mm w l v i ps s2 s3 s4 :
  _system_model polygon strand self = Pvsamv1 mm w l v i ps s2 s3 s4 ->
  PrimFloat.eqb mm 1 = true ->
  truthy s2 || truthy s3 || truthy s4 = true ->
  exists final,
    reset self solar_capacity_kw params
    = (final, Raises (NotImplementedError
                        "Only one subarray can be used in layout design"))
    /\ parameters polygon strand final = params
    /\ module_width polygon strand final = w
    /\ module_height polygon strand final = l
    /\ module_power polygon strand final
       = PrimFloat.div (PrimFloat.mul v i) 1000
    /\ modules_per_string polygon strand final = ps.
Proof.
  destruct self as [model ms mp mw mh mps pars nm st sr br]. cbn.
  intros -> Hmm Hsub.
  unfold reset_solargrid, _get_system_config. cbn.
  rewrite Hmm, Hsub. eexists. split; [reflexivity|].
  by repeat split.
Qed.

End SolarLayoutProperties.

Section SolarLayoutWitnesses.
Import SolarLayout.


Lemma detailed_model_cannot_be_laid_out_witness :
  exists final e,
    reset_solargrid unit unit unit sample_placement
      (fun _ _ _ => Return tt) (fun _ => Return 0%float)
      (sample_detailed_layout 0) 50 (Some sample_grid)
    = (final, Raises e).
Proof.
  apply (proj1 (detailed_model_cannot_be_laid_out
                  sample_placement (fun _ _ _ => Return tt)
                  (fun _ => Return 0%float)
                  (sample_detailed_layout 0) eq_refl)).
Defined.

Lemma failed_subarray_check_keeps_module_data_witness :
  exists final,
    reset_solargrid unit unit unit sample_placement
      (fun _ _ _ => Return tt) (fun _ => Return 0%float)
      (sample_detailed_layout 1) 50 (Some sample_grid)
    = (final, Raises (NotImplementedError
                        "Only one subarray can be used in layout design"))
    /\ parameters unit unit final = Some sample_grid
    /\ module_width unit unit final = 1%float
    /\ module_height unit unit final = 1.5%float
    /\ module_power unit unit final
       = PrimFloat.div (PrimFloat.mul 40 9) 1000
    /\ modules_per_string unit unit final = 12%float.
Proof.
  apply (failed_subarray_check_keeps_module_data
           sample_placement (fun _ _ _ => Return tt)
           (fun _ => Return 0%float)
           (sample_detailed_layout 1) 50 (Some sample_grid)
           1 1 1.5 40 9 12 1 0 0).
  - reflexivity.
  - vm_compute. reflexivity.
  - vm_compute. reflexivity.
Defined.

End SolarLayoutWitnesses.

(** ** The simulation window of [set_weather]: properties *)

Section WeatherWindowProperties.
Import Datetime WeatherWindow.

Lemma tuple_le_refl a : tuple_le a a = true.
Proof.
  induction a as [|x a IH]; [done|]. simpl.
  rewrite (proj2 (Z.ltb_ge x x)) by lia. by rewrite Z.eqb_refl.
Qed.




(** X20.  When start and end are the same datetime, as in the call made by
    [CspPlant.__init__], and its month and day exist in the weather year,
    the window is exactly one weather time step from that datetime moved to
    the weather year. *)
Theorem equal_bounds_give_one_step weather_year dt :
  valid (mk_datetime weather_year (month dt) (day dt) (hour dt) (minute dt)
                     (second dt) (microsecond dt)) = true ->
  weather_window weather_year dt dt
  = Ok (mk_datetime weather_year (month dt) (day dt) (hour dt) (minute dt)
                    (second dt) (microsecond dt),
        OneStepAfter
          (mk_datetime weather_year (month dt) (day dt) (hour dt) (minute dt)
                       (second dt) (microsecond dt))).
Proof.
  intros Hvalid. unfold weather_window.
  case_decide as Hyear.
  - unfold replace_year. rewrite (datetime_new_valid _ _ _ _ _ _ _ Hvalid).
    unfold mbind, result_bind. cbn [fst snd].
    unfold datetime_le. by rewrite tuple_le_refl.
  - assert (year dt = weather_year) as <-.
    { by destruct (decide (year dt = weather_year)). }
    unfold mbind, result_bind. cbn [fst snd].
    unfold datetime_le. rewrite tuple_le_refl. by destruct dt.
Qed.

Lemma equal_bounds_give_one_step_witness :
  weather_window 2012 (mk_datetime 1900 1 1 0 0 0 0)
                 (mk_datetime 1900 1 1 0 0 0 0)
  = Ok (mk_datetime 2012 1 1 0 0 0 0,
        OneStepAfter (mk_datetime 2012 1 1 0 0 0 0)).
Proof.
  apply (equal_bounds_give_one_step 2012 (mk_datetime 1900 1 1 0 0 0 0)).
  reflexivity.
Defined.

End WeatherWindowProperties.
